(** * The game console of the dashboard: src/components/GameConsole.tsx

    A shallow embedding of the [GameConsole] React component and of the
    hooks it relies on, followed by the properties of its specification.

    The component is a function of what its hooks return in one render; the
    mutable cells it owns (the [useState] cell, the two refs) are carried in an
    explicit record, and the browser's part (layout, scrolling, the network)
    appears as events and as a log of the writes the component performs. *)

From Stdlib Require Import ZArith NArith List String Ascii Bool Arith Lia Sorted.
Import ListNotations.

Local Open Scope string_scope.

(** ** The fragments of JavaScript the component uses *)

Module Js.

(** A statement either completes or throws. *)
Inductive Completion (A : Type) : Type :=
| Normal (a : A)
| Throw (message : string).
Arguments Normal {A} a.
Arguments Throw {A} message.

Definition bind {A B} (c : Completion A) (k : A -> Completion B) : Completion B :=
  match c with
  | Normal a => k a
  | Throw m => Throw m
  end.

(** Truthiness of a string: only the empty string is falsy. *)
Definition truthy (s : string) : bool :=
  match s with
  | EmptyString => false
  | String _ _ => true
  end.

(** [a || b] on strings. *)
Definition or_else (a b : string) : string := if truthy a then a else b.

(** [a !== ''] *)
Definition nonempty (s : string) : bool := negb (String.eqb s "").

(** [String.prototype.toLowerCase], on the ASCII letters; the other bytes
    of the string are left as they are. *)
Definition lower_char (c : ascii) : ascii :=
  let n := nat_of_ascii c in
  if ((65 <=? n) && (n <=? 90))%nat then ascii_of_nat (n + 32) else c.

Fixpoint toLowerCase (s : string) : string :=
  match s with
  | EmptyString => EmptyString
  | String c r => String (lower_char c) (toLowerCase r)
  end.

(** [JSON.stringify] of a string (QuoteJSONString): the text between two
    double quotes, with the double quote, the backslash and the control
    characters escaped. *)
Definition dquote : ascii := ascii_of_nat 34.
Definition backslash : ascii := ascii_of_nat 92.

Definition hex_digit (n : nat) : ascii :=
  nth n (list_ascii_of_string "0123456789abcdef") "0"%char.

Definition json_escape (c : ascii) : string :=
  let n := nat_of_ascii c in
  if (n =? 8)%nat then "\b"
  else if (n =? 9)%nat then "\t"
  else if (n =? 10)%nat then "\n"
  else if (n =? 12)%nat then "\f"
  else if (n =? 13)%nat then "\r"
  else if (n =? 34)%nat then String backslash (String dquote "")
  else if (n =? 92)%nat then String backslash (String backslash "")
  else if (n <? 32)%nat then
    "\u00" ++ String (hex_digit (n / 16)) (String (hex_digit (n mod 16)) "")
  else String c "".

Fixpoint json_escape_all (s : string) : string :=
  match s with
  | EmptyString => EmptyString
  | String c r => json_escape c ++ json_escape_all r
  end.

Definition JSON_stringify (s : string) : string :=
  String dquote (json_escape_all s ++ String dquote "").

(** [JSON.parse] of such a text, as the receiving end reads the body of the
    request: the inverse of the escapes above, for the characters below 256. *)
Definition hex_value (c : ascii) : option nat :=
  let n := nat_of_ascii c in
  if ((48 <=? n) && (n <=? 57))%nat then Some (n - 48)%nat
  else if ((97 <=? n) && (n <=? 102))%nat then Some (n - 87)%nat
  else if ((65 <=? n) && (n <=? 70))%nat then Some (n - 55)%nat
  else None.

Definition simple_escape (e : ascii) : option ascii :=
  let n := nat_of_ascii e in
  if (n =? 98)%nat then Some (ascii_of_nat 8)
  else if (n =? 116)%nat then Some (ascii_of_nat 9)
  else if (n =? 110)%nat then Some (ascii_of_nat 10)
  else if (n =? 102)%nat then Some (ascii_of_nat 12)
  else if (n =? 114)%nat then Some (ascii_of_nat 13)
  else if (n =? 34)%nat then Some dquote
  else if (n =? 92)%nat then Some backslash
  else if (n =? 47)%nat then Some (ascii_of_nat 47)
  else None.

Definition code_unit (a b c d : ascii) : option ascii :=
  match hex_value a, hex_value b, hex_value c, hex_value d with
  | Some x, Some y, Some z, Some w =>
      let n := (((x * 16 + y) * 16 + z) * 16 + w)%nat in
      if (n <? 256)%nat then Some (ascii_of_nat n) else None
  | _, _, _, _ => None
  end.

Definition prepend (c : option ascii) (rest : option string) : option string :=
  match c, rest with
  | Some c, Some r => Some (String c r)
  | _, _ => None
  end.

Fixpoint json_unescape_all (s : string) : option string :=
  match s with
  | EmptyString => None
  | String c r =>
      if (nat_of_ascii c =? 34)%nat then
        match r with
        | EmptyString => Some EmptyString
        | String _ _ => None
        end
      else if (nat_of_ascii c =? 92)%nat then
        match r with
        | EmptyString => None
        | String e r1 =>
            if (nat_of_ascii e =? 117)%nat then
              match r1 with
              | String a (String b (String h (String l r2))) =>
                  prepend (code_unit a b h l) (json_unescape_all r2)
              | _ => None
              end
            else prepend (simple_escape e) (json_unescape_all r1)
        end
      else if (nat_of_ascii c <? 32)%nat then None
      else prepend (Some c) (json_unescape_all r)
  end.

Definition JSON_parse_string (s : string) : option string :=
  match s with
  | EmptyString => None
  | String c r => if (nat_of_ascii c =? 34)%nat then json_unescape_all r else None
  end.

End Js.

(** ** The list element the component measures and scrolls *)

Module Dom.

(** The three layout numbers of the [<ol>] the component reads, in pixels. *)
Record HTMLOListElement : Type := mkElement {
  scrollHeight : Z;
  scrollTop : Z;
  clientHeight : Z
}.

(** [el.scrollTop = v]: the browser scrolls as far as the content allows,
    that is to [v] clamped between 0 and [scrollHeight - clientHeight]. *)
Definition clampTop (v : Z) (el : HTMLOListElement) : Z :=
  Z.max 0 (Z.min v (scrollHeight el - clientHeight el)).

Definition set_scrollTop (v : Z) (el : HTMLOListElement) : HTMLOListElement :=
  {| scrollHeight := scrollHeight el;
     scrollTop := clampTop v el;
     clientHeight := clientHeight el |}.

End Dom.

(** ** The component *)

Module GameConsole.
Import Js Dom.

Definition autoScrollThreshold : Z := 100.

(** bindings/InstanceInfo: the two fields the component reads. *)
Record InstanceInfo : Type := mkInstance {
  uuid : string;
  state : string
}.

(** The status [useConsoleStream] reports. *)
Inductive ConsoleStatus : Type :=
| no_permission
| loading
| buffered
| live
| live_no_buffer
| closed
| error.

Definition ConsoleStatus_eqb (a b : ConsoleStatus) : bool :=
  match a, b with
  | no_permission, no_permission
  | loading, loading
  | buffered, buffered
  | live, live
  | live_no_buffer, live_no_buffer
  | closed, closed
  | error, error => true
  | _, _ => false
  end.

(** One event of the console log, as the component renders it. *)
Record ConsoleEvent : Type := mkEvent {
  snowflake_str : string;
  message : string
}.

(** The log is a JavaScript array: the effect's dependency list compares it
    by identity ([Object.is]), so the array carries its identity. *)
Record JsArray : Type := mkArray {
  array_id : nat;
  items : list ConsoleEvent
}.

Record ConsoleStream : Type := mkStream {
  consoleLog : JsArray;
  consoleStatus : ConsoleStatus
}.

(** What the imported hooks give the component in one render. *)
Record Env : Type := mkEnv {
  selectedInstance : option InstanceInfo;
  useUserAuthorized : string -> string -> bool;
  useConsoleStream : string -> ConsoleStream
}.

(** The cells the component owns across renders. *)
Record Hooks : Type := mkHooks {
  command : string;                      (* useState('') *)
  listRef : option HTMLOListElement;     (* useRef(null).current *)
  previous : option bool;                (* the cell of usePrevious *)
  effectDeps : option nat                (* [consoleLog] at the last run of the effect *)
}.

Definition initialHooks : Hooks :=
  {| command := ""; listRef := None; previous := None; effectDeps := None |}.

(** Lines 25-30. *)
Definition distanceFromBottom (el : HTMLOListElement) : Z :=
  (scrollHeight el - scrollTop el - clientHeight el)%Z.

Definition isAtBottom (current : option HTMLOListElement) : bool :=
  match current with
  | Some el => (distanceFromBottom el <? autoScrollThreshold)%Z
  | None => true
  end.

(** Modelled from the spec: [usePrevious] of utils/hooks, which is not among
    the sources. It hands back the value it was given in the previous render
    (the value "captured before the mutating render") and nothing in the
    first render; the value of this render is stored once the render is
    committed ([storePrevious]). *)
Definition usePrevious (h : Hooks) : option bool := previous h.

Definition storePrevious (v : bool) (h : Hooks) : Hooks :=
  {| command := command h; listRef := listRef h;
     previous := Some v; effectDeps := effectDeps h |}.

(** [if (oldIsAtBottom)]: undefined is falsy. *)
Definition truthy_flag (v : option bool) : bool :=
  match v with
  | Some b => b
  | None => false
  end.

(** Lines 58-81. *)
Definition consoleStatusMessage (s : ConsoleStatus) : string :=
  match s with
  | no_permission => ""
  | loading => "Loading console..."
  | buffered => "History messages. No live updates"
  | live => "Console is live"
  | live_no_buffer =>
      "Console is live but failed to fetch history. Your internet connection may be unstable"
  | closed => "Console is closed"
  | error => "Connection lost or error"
  end.

(** Line 84 and line 98: the same test. *)
Definition permissionDenied (canAccessConsole : bool) (s : ConsoleStatus) : bool :=
  negb canAccessConsole || ConsoleStatus_eqb s no_permission.

(** Lines 83-89. *)
Definition consoleInputMessage
    (canAccessConsole : bool) (s : ConsoleStatus) (instance : InstanceInfo) : string :=
  if permissionDenied canAccessConsole s then "No permission"
  else if negb (String.eqb (state instance) "Running") then
    "Instance is " ++ toLowerCase (state instance)
  else if ConsoleStatus_eqb s closed then "Console is closed"
  else "".

(** What the component returns (lines 91-145), without the styling. *)
Inductive Pane : Type :=
| NoPermissionPane
| LogList (lines : list ConsoleEvent).

Record View : Type := mkView {
  statusBanner : option string;   (* consoleStatusMessage && <div>...</div> *)
  pane : Pane;
  placeholder : string;
  value : string;
  disabled : bool
}.

(** One render: the view, and the values its closures hold. *)
Record Rendered : Type := mkRendered {
  view : View;
  r_uuid : string;
  r_command : string;
  r_consoleLog : JsArray;
  r_isAtBottom : bool;
  r_oldIsAtBottom : option bool
}.

(** The function body, lines 14-146. *)
Definition GameConsole (env : Env) (h : Hooks) : Completion Rendered :=
  match selectedInstance env with
  | None => Throw "No instance selected"
  | Some instance =>
      let uuid := uuid instance in
      let canAccessConsole := useUserAuthorized env "can_access_instance_console" uuid in
      let stream := useConsoleStream env uuid in
      let command := command h in
      let isAtBottom := isAtBottom (listRef h) in
      let oldIsAtBottom := usePrevious h in
      let statusMessage := consoleStatusMessage (consoleStatus stream) in
      let inputMessage := consoleInputMessage canAccessConsole (consoleStatus stream) instance in
      Normal
        {| view :=
             {| statusBanner := if truthy statusMessage then Some statusMessage else None;
                pane := if permissionDenied canAccessConsole (consoleStatus stream)
                        then NoPermissionPane
                        else LogList (items (consoleLog stream));
                placeholder := or_else inputMessage "Enter command...";
                value := command;
                disabled := nonempty inputMessage |};
           r_uuid := uuid;
           r_command := command;
           r_consoleLog := consoleLog stream;
           r_isAtBottom := isAtBottom;
           r_oldIsAtBottom := oldIsAtBottom |}
  end.

(** *** What the component does to the outside *)

(** The argument of [axios(...)], lines 47-54. *)
Record AxiosRequest : Type := mkRequest {
  method : string;
  url : string;
  data : string;
  headers : list (string * string)
}.

(** The writes of the component, in the order they happen. *)
Inductive Write : Type :=
| Post (request : AxiosRequest)      (* axios({...}) *)
| ScrollTopWrite (v : Z).            (* listRef.current.scrollTop = v *)

(** A mounted component: its cells, the render that is on screen with the
    hook results it was made from, and what it has written so far. *)
Record State : Type := mkState {
  hooks : Hooks;
  mounted : option (Env * Rendered);
  writes : list Write
}.

Definition initialState : State :=
  {| hooks := initialHooks; mounted := None; writes := [] |}.

Definition with_hooks (f : Hooks -> Hooks) (s : State) : State :=
  {| hooks := f (hooks s); mounted := mounted s; writes := writes s |}.

Definition emit (w : Write) (s : State) : State :=
  {| hooks := hooks s; mounted := mounted s; writes := writes s ++ [w] |}.

Definition set_listRef (current : option HTMLOListElement) (h : Hooks) : Hooks :=
  {| command := command h; listRef := current;
     previous := previous h; effectDeps := effectDeps h |}.

Definition set_effectDeps (d : nat) (h : Hooks) : Hooks :=
  {| command := command h; listRef := listRef h;
     previous := previous h; effectDeps := Some d |}.

(** [setCommand], the setter of the [useState] cell. *)
Definition setCommand (text : string) (h : Hooks) : Hooks :=
  {| command := text; listRef := listRef h;
     previous := previous h; effectDeps := effectDeps h |}.

(** Lines 33-37. *)
Definition scrollToBottom (s : State) : State :=
  match listRef (hooks s) with
  | Some el =>
      emit (ScrollTopWrite (scrollHeight el))
           (with_hooks (set_listRef (Some (set_scrollTop (scrollHeight el) el))) s)
  | None => s
  end.

(** Lines 41-44, the body of the effect. *)
Definition autoScrollEffect (r : Rendered) (s : State) : State :=
  if truthy_flag (r_oldIsAtBottom r) then scrollToBottom s else s.

(** The dependency list [[consoleLog]]: the effect runs after the first
    render and after every render in which the array is another one. *)
Definition depsChanged (r : Rendered) (h : Hooks) : bool :=
  match effectDeps h with
  | None => true
  | Some d => negb (Nat.eqb d (array_id (r_consoleLog r)))
  end.

(** Lines 46-56. *)
Definition sendCommand (r : Rendered) (command : string) (s : State) : State :=
  scrollToBottom
    (emit (Post {| method := "post";
                   url := "/instance/" ++ r_uuid r ++ "/console";
                   data := JSON_stringify command;
                   headers := [("Content-Type", "application/json")] |})
          s).

(** After a render React updates the page, attaches the ref to the [<ol>]
    when there is one, and runs the effects in the order of the hooks: the
    one of [usePrevious], then the one of lines 41-44. [layout] is how the
    browser measures the list once the page is updated. *)
Definition attached (v : View) (layout : HTMLOListElement) : option HTMLOListElement :=
  match pane v with
  | LogList _ => Some layout
  | NoPermissionPane => None
  end.

Definition commit (env : Env) (r : Rendered) (layout : HTMLOListElement) (s : State) : State :=
  let s1 := {| hooks := set_listRef (attached (view r) layout) (hooks s);
               mounted := Some (env, r);
               writes := writes s |} in
  let s2 := with_hooks (storePrevious (r_isAtBottom r)) s1 in
  if depsChanged r (hooks s2)
  then autoScrollEffect r (with_hooks (set_effectDeps (array_id (r_consoleLog r))) s2)
  else s2.

Definition render (env : Env) (layout : HTMLOListElement) (s : State) : Completion State :=
  bind (GameConsole env (hooks s)) (fun r => Normal (commit env r layout s)).

(** A render caused by the component's own state: the hook results are the
    ones it had, and the list is as it is on the page. *)
Definition rerender (s : State) : Completion State :=
  match mounted s with
  | Some (env, _) =>
      match listRef (hooks s) with
      | Some el => render env el s
      | None => render env (mkElement 0 0 0) s
      end
  | None => Normal s
  end.

(** [setCommand(text)] from an event handler: React renders again, unless
    the text is the one the cell holds already. *)
Definition setCommandAndRender (text : string) (s : State) : Completion State :=
  if String.eqb text (command (hooks s)) then Normal s
  else rerender (with_hooks (setCommand text) s).

(** Line 137. *)
Definition onChange (text : string) (s : State) : Completion State :=
  setCommandAndRender text s.

(** Lines 127-131. *)
Definition onSubmit (r : Rendered) (s : State) : Completion State :=
  setCommandAndRender "" (sendCommand r (r_command r) s).

(** What can happen to a mounted console. The text field is the only
    control of the form: when it is disabled the browser gives it no focus
    and no key, so the user can neither type in it nor submit the form. *)
Inductive Event : Type :=
| Render (env : Env) (layout : HTMLOListElement)   (* a hook result changed *)
| Scroll (top : Z)                                 (* the user scrolls the list *)
| Change (text : string)                           (* the user edits the field *)
| Submit.                                          (* the user presses Enter *)

Definition enabledInput (s : State) : option Rendered :=
  match mounted s with
  | Some (_, r) => if disabled (view r) then None else Some r
  | None => None
  end.

Definition userScroll (top : Z) (s : State) : State :=
  match listRef (hooks s) with
  | Some el => with_hooks (set_listRef (Some (set_scrollTop top el))) s
  | None => s
  end.

Definition step (e : Event) (s : State) : Completion State :=
  match e with
  | Render env layout => render env layout s
  | Scroll top => Normal (userScroll top s)
  | Change text =>
      match enabledInput s with
      | Some _ => onChange text s
      | None => Normal s
      end
  | Submit =>
      match enabledInput s with
      | Some r => onSubmit r s
      | None => Normal s
      end
  end.

Fixpoint run (events : list Event) (s : State) : Completion State :=
  match events with
  | [] => Normal s
  | e :: rest => bind (step e s) (run rest)
  end.

(** The requests that reached the command transport. *)
Fixpoint posts (ws : list Write) : list AxiosRequest :=
  match ws with
  | [] => []
  | Post q :: rest => q :: posts rest
  | ScrollTopWrite _ :: rest => posts rest
  end.

(** The scroll commands issued. *)
Fixpoint scrollWrites (ws : list Write) : list Z :=
  match ws with
  | [] => []
  | Post _ :: rest => scrollWrites rest
  | ScrollTopWrite v :: rest => v :: scrollWrites rest
  end.

(** The render on screen agrees with the cells: its closures hold the
    current command and the identifier of the selected instance, the effect
    has seen its log, and an enabled field comes with a list on the page. *)
Definition inSync (s : State) : Prop :=
  match mounted s with
  | None => True
  | Some (env, r) =>
      exists i,
        selectedInstance env = Some i
        /\ r_uuid r = uuid i
        /\ r_command r = command (hooks s)
        /\ r_consoleLog r = consoleLog (useConsoleStream env (uuid i))
        /\ effectDeps (hooks s) = Some (array_id (r_consoleLog r))
        /\ disabled (view r)
           = nonempty (consoleInputMessage
                         (useUserAuthorized env "can_access_instance_console" (uuid i))
                         (consoleStatus (useConsoleStream env (uuid i))) i)
        /\ (disabled (view r) = false -> exists el, listRef (hooks s) = Some el)
  end.

End GameConsole.

(** ** The line buffer behind [useConsoleStream] *)

Module LineBuffer.

(** Modelled from the spec: the [ConsoleLine] of data/ConsoleStream, which
    is not among the sources: an identifier that orders the lines, and the
    text. *)
Record ConsoleLine : Type := mkLine {
  id : N;
  message : string
}.

Definition LineBuffer : Type := list ConsoleLine.

(** Modelled from the spec: the merge of one line into the buffer, which
    data/ConsoleStream (not among the sources) performs: the line goes in
    front of the first line with a larger [id], and is dropped when a line
    with its [id] is met first. *)
Fixpoint insert (x : ConsoleLine) (buf : LineBuffer) : LineBuffer :=
  match buf with
  | [] => [x]
  | y :: rest =>
      if (id x <? id y)%N then x :: buf
      else if (id x =? id y)%N then buf
      else y :: insert x rest
  end.

(** Modelled from the spec: [append] of the LineBuffer (data/ConsoleStream,
    not among the sources). Every line of the batch is put at its place by
    [insert], whatever the order of the batch, and the lines whose [id] the
    buffer already has are dropped. *)
Definition append (batch : list ConsoleLine) (buf : LineBuffer) : LineBuffer :=
  fold_left (fun b x => insert x b) batch buf.

(** Modelled from the spec: [replaceHistory] of the LineBuffer
    (data/ConsoleStream, not among the sources): the history that was
    fetched replaces the contents outright. *)
Definition replaceHistory (batch : list ConsoleLine) (buf : LineBuffer) : LineBuffer :=
  batch.

(** Modelled from the spec: [clear] of the LineBuffer (data/ConsoleStream,
    not among the sources). *)
Definition clear (buf : LineBuffer) : LineBuffer := [].

(** Modelled from the spec: [snapshot] of the LineBuffer (data/ConsoleStream,
    not among the sources): the lines in the order they are stored. *)
Definition snapshot (buf : LineBuffer) : list ConsoleLine := buf.

(** What the stream delivers to the buffer. *)
Inductive Delivery : Type :=
| History (batch : list ConsoleLine)
| Live (batch : list ConsoleLine)
| Cleared.

Definition deliver (buf : LineBuffer) (d : Delivery) : LineBuffer :=
  match d with
  | History batch => replaceHistory batch buf
  | Live batch => append batch buf
  | Cleared => clear buf
  end.

Definition deliverAll (ds : list Delivery) (buf : LineBuffer) : LineBuffer :=
  fold_left deliver ds buf.

Definition ids (ls : list ConsoleLine) : list N := map id ls.

(** Strictly increasing identifiers, as a test. *)
Fixpoint increasing (ns : list N) : bool :=
  match ns with
  | [] => true
  | a :: rest =>
      match rest with
      | [] => true
      | b :: _ => (a <? b)%N && increasing rest
      end
  end.

(** The history the transport returns is an ordered batch (section 6 of the
    specification); live batches come as they are. *)
Definition wellFormed (d : Delivery) : Prop :=
  match d with
  | History batch => increasing (ids batch) = true
  | Live _ => True
  | Cleared => True
  end.

(** [x] is found by [insert]: a line with its [id] stands in the buffer
    after lines with smaller ones only. *)
Fixpoint found (x : ConsoleLine) (buf : LineBuffer) : bool :=
  match buf with
  | [] => false
  | y :: rest =>
      if (id x <? id y)%N then false
      else if (id x =? id y)%N then true
      else found x rest
  end.

End LineBuffer.

(** ** Concrete consoles *)

Module Scenarios.
Import Js Dom GameConsole.

Definition server : InstanceInfo := {| uuid := "a1b2"; state := "Running" |}.
Definition stopped : InstanceInfo := {| uuid := "a1b2"; state := "Stopped" |}.

Definition authorized (action id : string) : bool :=
  String.eqb action "can_access_instance_console" && String.eqb id "a1b2".

Definition nobody (action id : string) : bool := false.

Definition l1 : ConsoleEvent := {| snowflake_str := "101"; message := "Starting server" |}.
Definition l2 : ConsoleEvent := {| snowflake_str := "102"; message := "Loading world" |}.
Definition l3 : ConsoleEvent := {| snowflake_str := "103"; message := "Done" |}.
Definition l4 : ConsoleEvent := {| snowflake_str := "104"; message := "Steve joined" |}.

Definition log0 : JsArray := {| array_id := 0; items := [] |}.
Definition log1 : JsArray := {| array_id := 1; items := [l1; l2; l3] |}.
Definition log2 : JsArray := {| array_id := 2; items := [l1; l2; l3; l4] |}.
Definition log3 : JsArray := {| array_id := 3; items := [l1; l2; l3; l4; l1] |}.

Definition console (i : InstanceInfo) (auth : string -> string -> bool)
    (log : JsArray) (status : ConsoleStatus) : Env :=
  {| selectedInstance := Some i;
     useUserAuthorized := auth;
     useConsoleStream := fun _ => {| consoleLog := log; consoleStatus := status |} |}.

(** A list 300 pixels high. The console is opened with an empty log; the
    history arrives and fills 1300 pixels; the reader scrolls back to the
    top; one more line arrives. *)
Definition opened : Event :=
  Render (console server authorized log0 live) (mkElement 300 0 300).
Definition historyArrives : Event :=
  Render (console server authorized log1 live) (mkElement 1300 0 300).
Definition readerScrollsUp : Event := Scroll 0.
Definition lineArrives : Event :=
  Render (console server authorized log2 live) (mkElement 1320 0 300).

(** Another line arrives. *)
Definition nextLineArrives : Event :=
  Render (console server authorized log3 live) (mkElement 1340 1020 300).

(** The console while the history is being fetched. *)
Definition whileLoading : Env := console server authorized log0 loading.

(** A stream that reconnects: the history, two live batches that overlap
    it and each other and come out of order, and the same batch again. *)
Definition line (n : N) : LineBuffer.ConsoleLine :=
  {| LineBuffer.id := n; LineBuffer.message := "line" |}.

Definition reconnecting : list LineBuffer.Delivery :=
  [LineBuffer.History [line 1; line 2; line 3];
   LineBuffer.Live [line 5; line 3; line 4];
   LineBuffer.Live [line 4; line 6; line 2];
   LineBuffer.Live [line 4; line 6; line 2]].

(** The console is opened and the user types a command. *)
Definition sayHi : list Event := [opened; Change "say hi"].

Definition typed : State :=
  match run sayHi initialState with
  | Normal s => s
  | Throw _ => initialState
  end.

End Scenarios.

(** ** The claims of the specification, as they are worded *)

Module Stated.
Import Js Dom GameConsole.

(** The conditions the specification lists for a blocked command: the
    permission is denied, the status is neither [live] nor [live-no-buffer],
    or the instance is not running. *)
Definition gatingConditions (can : bool) (st : ConsoleStatus) (i : InstanceInfo) : Prop :=
  can = false \/ (st <> live /\ st <> live_no_buffer) \/ state i <> "Running".

(** "Command submission is blocked exactly when at least one of the gating
    conditions holds." *)
Definition blockedExactlyWhenGated : Prop :=
  forall (i : InstanceInfo) auth stream (h : Hooks) (r : Rendered),
    GameConsole (mkEnv (Some i) auth stream) h = Normal r ->
    (disabled (view r) = true <->
     gatingConditions (auth "can_access_instance_console" (uuid i))
                      (consoleStatus (stream (uuid i))) i).

(** "On the very first buffer change after mount, no auto-scroll-to-bottom
    is issued." *)
Definition firstChangeNeverScrolls : Prop :=
  forall env0 layout0 env1 layout1 s1 r1 s2,
    render env0 layout0 initialState = Normal s1 ->
    GameConsole env1 (hooks s1) = Normal r1 ->
    depsChanged r1 (hooks s1) = true ->
    render env1 layout1 s1 = Normal s2 ->
    scrollWrites (writes s2) = [].

End Stated.

(** ** Runs of the console *)

Module ConsoleRuns.
Import Js Dom GameConsole.

(** How often the user pressed Enter in a run. *)
Fixpoint submits (events : list Event) : nat :=
  match events with
  | [] => 0
  | Submit :: rest => S (submits rest)
  | _ :: rest => submits rest
  end.

(** The field on screen shows the command its render was made with
    (line 136). *)
Definition showsCommand (s : State) : Prop :=
  match mounted s with
  | Some (_, r) => value (view r) = r_command r
  | None => True
  end.

(** The strings on which [toLowerCase] above is the one of JavaScript: those
    made of ASCII characters only, as the run-states of an instance are. *)
Fixpoint asciiOnly (s : string) : bool :=
  match s with
  | EmptyString => true
  | String c rest => (nat_of_ascii c <? 128)%nat && asciiOnly rest
  end.

(** The shape of the requests of lines 47-54. *)
Definition consoleRequest (q : AxiosRequest) : Prop :=
  method q = "post"
  /\ headers q = [("Content-Type", "application/json")]
  /\ (exists id, url q = "/instance/" ++ id ++ "/console")
  /\ (exists text, data q = JSON_stringify text).

End ConsoleRuns.

(** ** The layout that selects the instance: src/components/DashboardLayout/DashboardLayout.tsx *)

Module DashboardLayout.
Import Js.

(** The instance list is a JavaScript object keyed by uuid: its own
    properties, first binding first, on top of what every object inherits. *)
Definition InstanceList : Type := list (string * GameConsole.InstanceInfo).

Fixpoint ownProperty (key : string) (o : InstanceList) : option GameConsole.InstanceInfo :=
  match o with
  | [] => None
  | (k, v) :: rest => if String.eqb key k then Some v else ownProperty key rest
  end.

(** The property names of [Object.prototype]. *)
Definition objectPrototypeKeys : list string :=
  ["constructor"; "__defineGetter__"; "__defineSetter__"; "hasOwnProperty";
   "__lookupGetter__"; "__lookupSetter__"; "isPrototypeOf"; "propertyIsEnumerable";
   "toString"; "valueOf"; "__proto__"; "toLocaleString"].

Definition inherited (key : string) : bool :=
  existsb (String.eqb key) objectPrototypeKeys.

(** What [o[key]] evaluates to. *)
Inductive Member : Type :=
| Own (i : GameConsole.InstanceInfo)
| Inherited (name : string)
| Undefined.

Definition getMember (key : string) (o : InstanceList) : Member :=
  match ownProperty key o with
  | Some i => Own i
  | None => if inherited key then Inherited key else Undefined
  end.

(** [key in o] *)
Definition hasProperty (key : string) (o : InstanceList) : bool :=
  match ownProperty key o with
  | Some _ => true
  | None => inherited key
  end.

(** What the hooks give the layout in one render (lines 19-31). *)
Record Env : Type := mkEnv {
  queryUuid : string;                        (* useQueryParam('instance', '') *)
  userLoggedIn : bool;                       (* useUserLoggedIn() *)
  dataInstances : option InstanceList;       (* useInstanceList(userLoggedIn).data *)
  rightNavSize : Z;                          (* useLocalStorage('rightNavSize', 200) *)
  showNotifications : bool;                  (* useLocalStorage('showNotifications', false) *)
  width : Z                                  (* useWindowSize().width *)
}.

(** Line 33. *)
Definition instances (env : Env) : option InstanceList :=
  if userLoggedIn env then dataInstances env else None.

(** Lines 39-43: the argument the effect gives [setInstanceState]. *)
Definition selectionEffect (env : Env) : Member :=
  if truthy (queryUuid env) then
    match instances env with
    | Some o => if hasProperty (queryUuid env) o then getMember (queryUuid env) o else Undefined
    | None => Undefined
    end
  else Undefined.

(** The calls of the setters, in the order they are made. *)
Inductive SetterCall : Type :=
| SetInstanceState (instance : option GameConsole.InstanceInfo)
| SetQueryUuid (value : string)
| SetPathname (path : string).

(** Lines 45-55. *)
Definition setInstance (instance : option GameConsole.InstanceInfo) : list SetterCall :=
  match instance with
  | None => [SetInstanceState None; SetQueryUuid ""; SetPathname "/"]
  | Some i => [SetInstanceState (Some i); SetQueryUuid (GameConsole.uuid i); SetPathname "/dashboard"]
  end.

(** The query parameter once the calls are made. *)
Fixpoint queryAfter (calls : list SetterCall) (query : string) : string :=
  match calls with
  | [] => query
  | SetQueryUuid v :: rest => queryAfter rest v
  | _ :: rest => queryAfter rest query
  end.

Fixpoint pathAfter (calls : list SetterCall) (path : string) : string :=
  match calls with
  | [] => path
  | SetPathname v :: rest => pathAfter rest v
  | _ :: rest => pathAfter rest path
  end.

(** The state [useState] keeps once the effect has run: the instance, or
    nothing. An inherited member is a function, which React would run as an
    updater; that case is left out. When the effect runs, by its dependency
    list, is in [LayoutRuns] below. *)
Definition selectedAfterEffect (env : Env) : option (option GameConsole.InstanceInfo) :=
  match selectionEffect env with
  | Own i => Some (Some i)
  | Undefined => Some None
  | Inherited _ => None
  end.

(** Line 60: [instances || {}]. *)
Definition instanceList (env : Env) : InstanceList :=
  match instances env with
  | Some o => o
  | None => []
  end.

(** Lines 83-105: where the notifications go. *)
Inductive Notifications : Type :=
| NoPanel
| ResizePanel (maxSize minSize size : Z)
| Overlay (width : Z).

Definition notifications (env : Env) : Notifications :=
  if showNotifications env then
    if (1280 <? width env)%Z then ResizePanel 500 200 (rightNavSize env)
    else Overlay (rightNavSize env)
  else NoPanel.

End DashboardLayout.

(** ** The field of one game setting: src/components/SettingField.tsx *)

Module SettingField.
Import Js.

Inductive FieldType : Type :=
| text
| number
| dropdown.

(** The props, lines 11-27. *)
Record Props : Type := mkProps {
  instance : GameConsole.InstanceInfo;
  setting : string;
  label : option string;
  type : option FieldType;
  options : option (list string);
  min : option Z;
  max : option Z
}.

(** What [useGameSetting] returns. *)
Record GameSetting : Type := mkSetting {
  data : option string;
  isLoading : bool;
  error : option string
}.

(** What the imported hooks and helpers give the field in one render. *)
Record Env : Type := mkEnv {
  useGameSetting : string -> string -> GameSetting;
  useUserAuthorized : string -> string -> bool;
  errorToMessage : option string -> string
}.

(** [a ?? b] *)
Definition nullish (a : option string) (b : string) : string :=
  match a with
  | Some v => v
  | None => b
  end.

(** What the field returns. *)
Inductive View : Type :=
| Textfield (label value type : string) (min max : option Z) (disabled : bool) (error : string)
| Dropdown (label value : string) (options : list string) (disabled : bool) (error : string).

(** The function body, lines 28-104, for the [value] the state cell holds. *)
Definition SettingField (p : Props) (env : Env) (value : string) : Completion View :=
  let uuid := GameConsole.uuid (instance p) in
  let fetched := useGameSetting env uuid (setting p) in
  let label := nullish (label p) (setting p) in
  let can_access_instance_setting :=
    useUserAuthorized env "can_access_instance_setting" (GameConsole.uuid (instance p)) in
  let errorString := errorToMessage env (error fetched) in
  match type p with
  | None | Some text =>
      Normal (Textfield label value "text" None None (isLoading fetched) errorString)
  | Some number =>
      Normal (Textfield label value "number" (min p) (max p) (isLoading fetched) errorString)
  | Some dropdown =>
      match options p with
      | None => Throw "Dropdown type requires options"
      | Some opts => Normal (Dropdown label value opts (isLoading fetched) errorString)
      end
  end.

(** The call of [axiosPutSingleValue]. *)
Record PutRequest : Type := mkPut {
  put_url : string;
  put_value : string
}.

(** The state cell, the setting the layout effect has seen, and the
    requests made so far. *)
Record State : Type := mkState {
  value : string;
  seenSetting : option (option string);
  puts : list PutRequest
}.

(** Line 35, at mount. *)
Definition mount (p : Props) (env : Env) : State :=
  {| value := nullish (data (useGameSetting env (GameConsole.uuid (instance p)) (setting p))) "";
     seenSetting := None;
     puts := [] |}.

Definition option_string_eqb (a b : option string) : bool :=
  match a, b with
  | Some x, Some y => String.eqb x y
  | None, None => true
  | _, _ => false
  end.

(** Lines 41-43: the layout effect, with its dependency [[initialSetting]]. *)
Definition layoutEffect (initialSetting : option string) (s : State) : State :=
  match seenSetting s with
  | Some seen =>
      if option_string_eqb seen initialSetting then s
      else {| value := nullish initialSetting "";
              seenSetting := Some initialSetting;
              puts := puts s |}
  | None =>
      {| value := nullish initialSetting "";
         seenSetting := Some initialSetting;
         puts := puts s |}
  end.

(** One render with its layout effect: the state afterwards and the view
    that is painted. *)
Definition render (p : Props) (env : Env) (s : State) : Completion (State * View) :=
  bind (SettingField p env (value s))
       (fun _ =>
          let s' := layoutEffect
                      (data (useGameSetting env (GameConsole.uuid (instance p)) (setting p))) s in
          bind (SettingField p env (value s')) (fun v => Normal (s', v))).

Definition settingUrl (p : Props) : string :=
  "/instance/" ++ GameConsole.uuid (instance p) ++ "/game/" ++ setting p.

(** The handlers of lines 56-62, 77-82 and 96-101. The request is made
    first; when it fails the handler stops there. *)
Definition onSubmit (p : Props) (submitted : string) (putSucceeds : bool) (s : State) : State :=
  let requested := {| value := value s;
                      seenSetting := seenSetting s;
                      puts := puts s ++ [mkPut (settingUrl p) submitted] |} in
  match type p with
  | None | Some text =>
      if putSucceeds
      then {| value := submitted;
              seenSetting := seenSetting requested;
              puts := puts requested |}
      else requested
  | Some number => requested
  | Some dropdown => requested
  end.

(** What happens to a mounted field. *)
Inductive Event : Type :=
| Render (p : Props) (env : Env)
| Submitted (p : Props) (submitted : string) (putSucceeds : bool).

Definition step (e : Event) (s : State) : Completion State :=
  match e with
  | Render p env => bind (render p env s) (fun sv => Normal (fst sv))
  | Submitted p submitted ok => Normal (onSubmit p submitted ok s)
  end.

Fixpoint run (events : list Event) (s : State) : Completion State :=
  match events with
  | [] => Normal s
  | e :: rest => bind (step e s) (run rest)
  end.

End SettingField.

(** ** Concrete layouts and fields *)

Module Pages.
Import Js.

Definition withQuery (query : string) (env : DashboardLayout.Env) : DashboardLayout.Env :=
  {| DashboardLayout.queryUuid := query;
     DashboardLayout.userLoggedIn := DashboardLayout.userLoggedIn env;
     DashboardLayout.dataInstances := DashboardLayout.dataInstances env;
     DashboardLayout.rightNavSize := DashboardLayout.rightNavSize env;
     DashboardLayout.showNotifications := DashboardLayout.showNotifications env;
     DashboardLayout.width := DashboardLayout.width env |}.

Definition survival : GameConsole.InstanceInfo :=
  {| GameConsole.uuid := "a1b2"; GameConsole.state := "Running" |}.
Definition creative : GameConsole.InstanceInfo :=
  {| GameConsole.uuid := "c3d4"; GameConsole.state := "Stopped" |}.

(** A logged-in user with two instances, none selected. *)
Definition home : DashboardLayout.Env :=
  {| DashboardLayout.queryUuid := "";
     DashboardLayout.userLoggedIn := true;
     DashboardLayout.dataInstances := Some [("a1b2", survival); ("c3d4", creative)];
     DashboardLayout.rightNavSize := 200;
     DashboardLayout.showNotifications := false;
     DashboardLayout.width := 1440 |}.

(** The field of the server port of an instance. *)
Definition portField : SettingField.Props :=
  {| SettingField.instance := survival;
     SettingField.setting := "server-port";
     SettingField.label := None;
     SettingField.type := Some SettingField.number;
     SettingField.options := None;
     SettingField.min := Some 0%Z;
     SettingField.max := Some 65535%Z |}.

Definition motdField : SettingField.Props :=
  {| SettingField.instance := survival;
     SettingField.setting := "motd";
     SettingField.label := Some "Message of the day";
     SettingField.type := None;
     SettingField.options := None;
     SettingField.min := None;
     SettingField.max := None |}.

Definition fetched (v : option string) : SettingField.Env :=
  {| SettingField.useGameSetting :=
       fun _ _ => {| SettingField.data := v;
                     SettingField.isLoading := false;
                     SettingField.error := None |};
     SettingField.useUserAuthorized := fun _ _ => false;
     SettingField.errorToMessage := fun _ => "" |}.

(** The field after its first render, with "Welcome" fetched. *)
Definition motdShown : SettingField.State :=
  SettingField.layoutEffect (Some "Welcome")
    (SettingField.mount motdField (fetched (Some "Welcome"))).

End Pages.

(** ** The layout across renders *)

Module LayoutRuns.
Import Js DashboardLayout Pages.

(** The state cell of line 23 and what the effect of lines 39-43 has seen of
    its dependencies [[instances, queryUuid]]: the identity of the list (none
    when [instances] is undefined) and the query parameter. *)
Record Cells : Type := mkCells {
  instance : option GameConsole.InstanceInfo;
  seenDeps : option (option nat * string)
}.

Definition initialCells : Cells := {| instance := None; seenDeps := None |}.

(** One render: the hook results, and the identity of the object
    [dataInstances] when there is one. *)
Record Rendering : Type := mkRendering {
  env : Env;
  instancesId : nat
}.

Definition deps (r : Rendering) : option nat * string :=
  (match instances (env r) with
   | Some _ => Some (instancesId r)
   | None => None
   end,
   queryUuid (env r)).

Definition option_nat_eqb (a b : option nat) : bool :=
  match a, b with
  | Some x, Some y => Nat.eqb x y
  | None, None => true
  | _, _ => false
  end.

Definition depsChanged (r : Rendering) (c : Cells) : bool :=
  match seenDeps c with
  | None => true
  | Some (seenList, seenQuery) =>
      negb (option_nat_eqb seenList (fst (deps r)) && String.eqb seenQuery (snd (deps r)))
  end.

(** The effect after a render: it runs at mount and when a dependency has
    changed, and then stores what lines 40-42 select. The result is [None]
    when the argument of [setInstanceState] is an inherited member, which is
    left out. *)
Definition renderEffect (r : Rendering) (c : Cells) : option Cells :=
  if depsChanged r c then
    match selectedAfterEffect (env r) with
    | Some selected => Some {| instance := selected; seenDeps := Some (deps r) |}
    | None => None
    end
  else Some c.

(** [selectInstance(instance)] from a page, lines 45-55, and the render that
    follows: the cell holds the argument, the query parameter is the one
    [setQueryUuid] was given, and the effect runs if a dependency changed. *)
Definition select (i : option GameConsole.InstanceInfo) (r : Rendering) (c : Cells)
  : option Cells :=
  renderEffect
    {| env := withQuery (queryAfter (setInstance i) (queryUuid (env r))) (env r);
       instancesId := instancesId r |}
    {| instance := i; seenDeps := seenDeps c |}.

(** The layout of the logged-in user of [home], with the list object 7. *)
Definition atHome : Rendering := {| env := home; instancesId := 7 |}.

(** An instance that is not in the list. *)
Definition removed : GameConsole.InstanceInfo :=
  {| GameConsole.uuid := "e5f6"; GameConsole.state := "Stopped" |}.

End LayoutRuns.

(** ** Properties of the component *)

Module GameConsoleProps.
Import Js Dom GameConsole Scenarios Stated.

(** *** Small facts on the JavaScript fragments *)

Lemma nonempty_truthy (s : string) : nonempty s = truthy s.
Proof. destruct s; reflexivity. Qed.

Lemma or_else_nonempty (a b : string) : nonempty a = true -> or_else a b = a.
Proof. rewrite nonempty_truthy; unfold or_else; intros ->; reflexivity. Qed.

Lemma ConsoleStatus_eqb_eq (a b : ConsoleStatus) : ConsoleStatus_eqb a b = true <-> a = b.
Proof. destruct a, b; simpl; split; congruence. Qed.

Lemma permissionDenied_iff (can : bool) (st : ConsoleStatus) :
  permissionDenied can st = true <-> can = false \/ st = no_permission.
Proof.
  unfold permissionDenied.
  rewrite orb_true_iff, negb_true_iff, ConsoleStatus_eqb_eq.
  reflexivity.
Qed.

Lemma append_assoc (a b c : string) : (a ++ b) ++ c = a ++ (b ++ c).
Proof. induction a as [|x a IH]; simpl; [reflexivity|rewrite IH; reflexivity]. Qed.

Lemma json_unescape_escape (c : ascii) (rest : string) :
  json_unescape_all (json_escape c ++ rest) = prepend (Some c) (json_unescape_all rest).
Proof. destruct c as [[] [] [] [] [] [] [] []]; reflexivity. Qed.

Lemma json_unescape_escape_all (s : string) :
  json_unescape_all (json_escape_all s ++ String dquote "") = Some s.
Proof.
  induction s as [|c r IH]; [reflexivity|].
  simpl json_escape_all. rewrite append_assoc, json_unescape_escape, IH. reflexivity.
Qed.

(** The body of the request is the command and nothing else: parsing it
    gives the text back, character for character. *)
Lemma JSON_parse_stringify (s : string) : JSON_parse_string (JSON_stringify s) = Some s.
Proof. unfold JSON_stringify; simpl. apply json_unescape_escape_all. Qed.

Lemma JSON_stringify_injective (a b : string) :
  JSON_stringify a = JSON_stringify b -> a = b.
Proof.
  intros H. apply (f_equal JSON_parse_string) in H.
  rewrite !JSON_parse_stringify in H. congruence.
Qed.

(** *** The input message, lines 83-89 *)

Lemma inputMessage_denied can st i :
  permissionDenied can st = true -> consoleInputMessage can st i = "No permission".
Proof. unfold consoleInputMessage; intros ->; reflexivity. Qed.

Lemma inputMessage_cases can st i :
  consoleInputMessage can st i = "No permission"
  \/ consoleInputMessage can st i = "Instance is " ++ toLowerCase (state i)
  \/ consoleInputMessage can st i = "Console is closed"
  \/ consoleInputMessage can st i = "".
Proof.
  unfold consoleInputMessage.
  destruct (permissionDenied can st); [now left|].
  destruct (negb (state i =? "Running")); [now right; left|].
  destruct (ConsoleStatus_eqb st closed); [now right; right; left|now right; right; right].
Qed.

Lemma inputMessage_nonempty can st i :
  nonempty (consoleInputMessage can st i) = true <->
  can = false \/ st = no_permission \/ state i <> "Running" \/ st = closed.
Proof.
  unfold consoleInputMessage.
  destruct (permissionDenied can st) eqn:Hp.
  - apply permissionDenied_iff in Hp. simpl. intuition.
  - assert (Hp' : can <> false /\ st <> no_permission).
    { split; intro; subst; [destruct st|destruct can]; discriminate Hp. }
    destruct (String.eqb_spec (state i) "Running") as [Hr|Hr]; simpl.
    + destruct (ConsoleStatus_eqb st closed) eqn:Hc.
      * apply ConsoleStatus_eqb_eq in Hc. simpl. intuition.
      * assert (st <> closed) by (intro; subst; discriminate Hc).
        simpl. split; [discriminate|]. intuition.
    + intuition.
Qed.

(** *** One render *)

Lemma GameConsole_selected (i : InstanceInfo) auth stream (h : Hooks) :
  exists r,
    GameConsole (mkEnv (Some i) auth stream) h = Normal r
    /\ r_uuid r = uuid i
    /\ r_command r = command h
    /\ r_consoleLog r = consoleLog (stream (uuid i))
    /\ r_isAtBottom r = isAtBottom (listRef h)
    /\ r_oldIsAtBottom r = previous h
    /\ disabled (view r)
       = nonempty (consoleInputMessage (auth "can_access_instance_console" (uuid i))
                                       (consoleStatus (stream (uuid i))) i)
    /\ placeholder (view r)
       = or_else (consoleInputMessage (auth "can_access_instance_console" (uuid i))
                                      (consoleStatus (stream (uuid i))) i)
                 "Enter command..."
    /\ pane (view r)
       = if permissionDenied (auth "can_access_instance_console" (uuid i))
                             (consoleStatus (stream (uuid i)))
         then NoPermissionPane
         else LogList (items (consoleLog (stream (uuid i)))).
Proof. eexists; unfold GameConsole; simpl; repeat split. Qed.

(** C7. The viewport is at the bottom exactly when its distance from the
    bottom, [scrollHeight - scrollTop - clientHeight], is strictly below the
    threshold, and the threshold is 100 pixels. *)
Theorem isAtBottom_threshold :
  autoScrollThreshold = 100%Z
  /\ forall el : HTMLOListElement,
       isAtBottom (Some el) = true
       <-> (scrollHeight el - scrollTop el - clientHeight el < 100)%Z.
Proof.
  split; [reflexivity|].
  intros el; unfold isAtBottom, distanceFromBottom, autoScrollThreshold.
  apply Z.ltb_lt.
Qed.

(** The comparison is strict: 99 pixels away is at the bottom, 100 is not. *)
Example isAtBottom_99 : isAtBottom (Some (mkElement 1000 601 300)) = true.
Proof. reflexivity. Qed.

Example isAtBottom_100 : isAtBottom (Some (mkElement 1000 600 300)) = false.
Proof. reflexivity. Qed.

(** C9. While the list is not on the page (the ref is null) the viewport
    counts as at the bottom: [isAtBottom] is true, in every render made with
    a null ref. *)
Theorem isAtBottom_unmounted :
  isAtBottom None = true
  /\ forall (i : InstanceInfo) auth stream cmd prev deps,
       exists r,
         GameConsole (mkEnv (Some i) auth stream) (mkHooks cmd None prev deps) = Normal r
         /\ r_isAtBottom r = true.
Proof.
  split; [reflexivity|].
  intros; eexists; split; reflexivity.
Qed.

(** C6. Without a selected instance the component throws: the render does
    not complete, whatever the other hooks would return and whatever the
    state of the component. *)
Theorem no_instance_throws :
  forall auth stream (h : Hooks) layout (s : State),
    GameConsole (mkEnv None auth stream) h = Throw "No instance selected"
    /\ step (Render (mkEnv None auth stream) layout) s = Throw "No instance selected".
Proof. intros; split; reflexivity. Qed.

(** With an instance the render completes. *)
Lemma instance_renders (i : InstanceInfo) auth stream (h : Hooks) :
  exists r, GameConsole (mkEnv (Some i) auth stream) h = Normal r.
Proof. eexists; reflexivity. Qed.

(** C3. When the permission check fails, or the status is [no-permission],
    the console shows the no-permission pane and the input is disabled with
    the message "No permission", for every status and every run-state. *)
Theorem permission_preempts :
  forall (i : InstanceInfo) auth stream (h : Hooks),
    auth "can_access_instance_console" (uuid i) = false
    \/ consoleStatus (stream (uuid i)) = no_permission ->
    exists r,
      GameConsole (mkEnv (Some i) auth stream) h = Normal r
      /\ pane (view r) = NoPermissionPane
      /\ placeholder (view r) = "No permission"
      /\ disabled (view r) = true.
Proof.
  intros i auth stream h Hden.
  apply permissionDenied_iff in Hden.
  destruct (GameConsole_selected i auth stream h)
    as (r & Hr & _ & _ & _ & _ & _ & Hdis & Hph & Hpane).
  exists r. rewrite Hdis, Hph, Hpane, Hden.
  rewrite (inputMessage_denied _ _ i Hden).
  repeat split; assumption.
Qed.

Lemma permission_preempts_witness :
  exists r,
    GameConsole (console stopped nobody log1 live) initialHooks = Normal r
    /\ pane (view r) = NoPermissionPane
    /\ placeholder (view r) = "No permission"
    /\ disabled (view r) = true.
Proof.
  apply (permission_preempts stopped nobody
           (fun _ => {| consoleLog := log1; consoleStatus := live |}) initialHooks).
  left; reflexivity.
Defined.

(** The status line in the corner is the one of the stream, also then. *)
Example denied_console_keeps_banner :
  exists r,
    GameConsole (console stopped nobody log1 live) initialHooks = Normal r
    /\ pane (view r) = NoPermissionPane
    /\ statusBanner (view r) = Some "Console is live".
Proof. eexists; repeat split. Qed.

(** *** Commits and events *)


Lemma render_selected (i : InstanceInfo) auth stream layout s :
  exists r,
    GameConsole (mkEnv (Some i) auth stream) (hooks s) = Normal r
    /\ render (mkEnv (Some i) auth stream) layout s
       = Normal (commit (mkEnv (Some i) auth stream) r layout s).
Proof. eexists; split; reflexivity. Qed.

Lemma commit_mounted env r layout s : mounted (commit env r layout s) = Some (env, r).
Proof.
  unfold commit, autoScrollEffect, scrollToBottom; simpl.
  repeat match goal with |- context [if ?b then _ else _] => destruct b end;
    simpl; try reflexivity.
  destruct (attached (view r) layout); reflexivity.
Qed.

Lemma commit_command env r layout s :
  command (hooks (commit env r layout s)) = command (hooks s).
Proof.
  unfold commit, autoScrollEffect, scrollToBottom; simpl.
  repeat match goal with |- context [if ?b then _ else _] => destruct b end;
    simpl; try reflexivity.
  destruct (attached (view r) layout); reflexivity.
Qed.

Lemma commit_previous env r layout s :
  previous (hooks (commit env r layout s)) = Some (r_isAtBottom r).
Proof.
  unfold commit, autoScrollEffect, scrollToBottom; simpl.
  repeat match goal with |- context [if ?b then _ else _] => destruct b end;
    simpl; try reflexivity.
  destruct (attached (view r) layout); reflexivity.
Qed.

Lemma commit_effectDeps env r layout s :
  effectDeps (hooks (commit env r layout s)) = Some (array_id (r_consoleLog r)).
Proof.
  unfold commit, autoScrollEffect, scrollToBottom, depsChanged; simpl.
  destruct (effectDeps (hooks s)) as [d|] eqn:Hd; simpl.
  - destruct (Nat.eqb_spec d (array_id (r_consoleLog r))) as [->|Hne]; simpl.
    + assumption.
    + destruct (truthy_flag (r_oldIsAtBottom r)); simpl; [|reflexivity].
      destruct (attached (view r) layout); reflexivity.
  - destruct (truthy_flag (r_oldIsAtBottom r)); simpl; [|reflexivity].
    destruct (attached (view r) layout); reflexivity.
Qed.

(** What one commit writes, and where it leaves the list: the effect of
    lines 41-44 writes [scrollTop] when the log array is a new one and the
    captured flag is true, and only then. *)
Lemma commit_scroll env r layout s :
  let fires := depsChanged r (hooks s) && truthy_flag (r_oldIsAtBottom r) in
  match attached (view r) layout with
  | Some el =>
      writes (commit env r layout s)
      = (writes s ++ (if fires then [ScrollTopWrite (scrollHeight el)] else []))%list
      /\ listRef (hooks (commit env r layout s))
         = Some (if fires then set_scrollTop (scrollHeight el) el else el)
  | None =>
      writes (commit env r layout s) = writes s
      /\ listRef (hooks (commit env r layout s)) = None
  end.
Proof.
  unfold commit, autoScrollEffect, scrollToBottom, depsChanged; simpl.
  destruct (attached (view r) layout) as [el|];
    destruct (effectDeps (hooks s)) as [d|]; simpl;
    try destruct (Nat.eqb d (array_id (r_consoleLog r))); simpl;
    destruct (truthy_flag (r_oldIsAtBottom r)); simpl;
    rewrite ?app_nil_r; split; reflexivity.
Qed.

Lemma render_inSync env layout s s' : render env layout s = Normal s' -> inSync s'.
Proof.
  intros H. destruct env as [[i|] auth stream]; [|discriminate H].
  destruct (render_selected i auth stream layout s) as (r & Hr & Hs).
  rewrite Hs in H; injection H as <-.
  destruct (GameConsole_selected i auth stream (hooks s))
    as (r' & Hr' & Hu & Hc & Hl & _ & _ & Hdis & _ & Hpane).
  rewrite Hr in Hr'; injection Hr' as <-.
  unfold inSync. rewrite commit_mounted.
  exists i; simpl. rewrite commit_command, commit_effectDeps.
  repeat split; try assumption.
  intros Hen.
  pose proof (commit_scroll (mkEnv (Some i) auth stream) r layout s) as Hcs.
  simpl in Hcs. unfold attached in Hcs. rewrite Hpane in Hcs.
  destruct (permissionDenied _ _) eqn:Hp.
  - rewrite Hdis, (inputMessage_denied _ _ i Hp) in Hen. discriminate Hen.
  - destruct Hcs as [_ ->]. eexists; reflexivity.
Qed.

Lemma rerender_inSync s s' env r :
  mounted s = Some (env, r) -> rerender s = Normal s' -> inSync s'.
Proof.
  unfold rerender. intros -> H.
  destruct (listRef (hooks s)); apply render_inSync in H; exact H.
Qed.



Lemma sendCommand_inSync r text s : inSync s -> inSync (sendCommand r text s).
Proof.
  unfold sendCommand, scrollToBottom, inSync; simpl.
  destruct (listRef (hooks s)) as [el|] eqn:Hl; simpl; [|rewrite Hl; trivial].
  destruct (mounted s) as [[env r']|]; [|trivial].
  intros (i & H1 & H2 & H3 & H4 & H5 & H6 & H7).
  exists i; repeat split; try assumption.
  intros _; eexists; reflexivity.
Qed.

Lemma setCommandAndRender_inSync text s s' :
  inSync s -> setCommandAndRender text s = Normal s' -> inSync s'.
Proof.
  unfold setCommandAndRender. intros Hs H.
  destruct (String.eqb text (command (hooks s))).
  - injection H as <-. exact Hs.
  - destruct (mounted s) as [[env r]|] eqn:Hm.
    + eapply rerender_inSync; [|exact H]. exact Hm.
    + unfold rerender in H; simpl in H. rewrite Hm in H. injection H as <-.
      unfold inSync; simpl. rewrite Hm. exact I.
Qed.

Lemma step_inSync e s s' : inSync s -> step e s = Normal s' -> inSync s'.
Proof.
  intros Hs H. destruct e as [env layout|top|text|]; simpl in H.
  - eapply render_inSync; eassumption.
  - injection H as <-. unfold userScroll.
    destruct (listRef (hooks s)) as [el|] eqn:Hl; [|exact Hs].
    unfold inSync in *; simpl.
    destruct (mounted s) as [[env r]|]; [|exact I].
    destruct Hs as (i & H1 & H2 & H3 & H4 & H5 & H6 & H7).
    exists i; repeat split; try assumption.
    intros _; eexists; reflexivity.
  - destruct (enabledInput s) as [r|].
    + eapply setCommandAndRender_inSync; eassumption.
    + injection H as <-. exact Hs.
  - destruct (enabledInput s) as [r|].
    + eapply setCommandAndRender_inSync; [|exact H].
      apply sendCommand_inSync, Hs.
    + injection H as <-. exact Hs.
Qed.

Lemma run_inSync events : forall s s', inSync s -> run events s = Normal s' -> inSync s'.
Proof.
  induction events as [|e rest IH]; simpl; intros s s' Hs H.
  - injection H as <-. exact Hs.
  - destruct (step e s) as [s1|m] eqn:He; simpl in H; [|discriminate H].
    eapply IH; [|exact H]. eapply step_inSync; eassumption.
Qed.

Lemma reachable_inSync events s : run events initialState = Normal s -> inSync s.
Proof. apply run_inSync. exact I. Qed.

(** *** Submitting a command *)

Lemma posts_app (a b : list Write) : posts (a ++ b) = (posts a ++ posts b)%list.
Proof.
  induction a as [|[q|v] a IH]; simpl; [reflexivity| |assumption].
  rewrite IH; reflexivity.
Qed.


Lemma disabled_false_permitted can st i :
  nonempty (consoleInputMessage can st i) = false -> permissionDenied can st = false.
Proof.
  destruct (permissionDenied can st) eqn:Hp; [|reflexivity].
  rewrite (inputMessage_denied _ _ i Hp). discriminate.
Qed.

(** A render made with the hook results of the render on screen, from cells
    the effect has seen, writes nothing and leaves the list as it is. *)
Lemma rerender_quiet s env r el :
  inSync s -> mounted s = Some (env, r) -> disabled (view r) = false ->
  forall h' ws,
    listRef h' = Some el -> effectDeps h' = effectDeps (hooks s) ->
    exists s',
      rerender (mkState h' (mounted s) ws) = Normal s'
      /\ writes s' = ws
      /\ listRef (hooks s') = Some el
      /\ command (hooks s') = command h'.
Proof.
  intros Hs Hm Hen h' ws Hl Hd.
  unfold inSync in Hs. rewrite Hm in Hs.
  destruct Hs as (i & Hsel & Hu & Hc & Hlog & Hdeps & Hdis & _).
  destruct env as [sel auth stream]; simpl in *; subst sel.
  unfold rerender; simpl. rewrite Hm, Hl.
  destruct (render_selected i auth stream el (mkState h' (Some (mkEnv (Some i) auth stream, r)) ws))
    as (r2 & Hr2 & Hrender).
  rewrite Hrender. eexists; split; [reflexivity|].
  destruct (GameConsole_selected i auth stream h')
    as (r2' & Hr2' & _ & _ & Hlog2 & _ & _ & _ & _ & Hpane).
  simpl in Hr2. rewrite Hr2 in Hr2'; injection Hr2' as <-.
  pose proof (commit_scroll (mkEnv (Some i) auth stream) r2 el
                (mkState h' (Some (mkEnv (Some i) auth stream, r)) ws)) as Hcs.
  simpl in Hcs. unfold attached in Hcs. rewrite Hpane in Hcs.
  rewrite Hdis in Hen. rewrite (disabled_false_permitted _ _ _ Hen) in Hcs.
  assert (Hno : depsChanged r2 h' = false).
  { unfold depsChanged. rewrite Hd, Hdeps, Hlog2, Hlog, Nat.eqb_refl. reflexivity. }
  rewrite Hno in Hcs. simpl in Hcs. rewrite app_nil_r in Hcs.
  destruct Hcs as [Hw Hr]. rewrite commit_command. repeat split; assumption.
Qed.

Lemma setCommandAndRender_quiet s env r el text :
  inSync s -> mounted s = Some (env, r) -> disabled (view r) = false ->
  forall h' ws,
    listRef h' = Some el -> effectDeps h' = effectDeps (hooks s) ->
    exists s',
      setCommandAndRender text (mkState h' (mounted s) ws) = Normal s'
      /\ writes s' = ws
      /\ listRef (hooks s') = Some el
      /\ command (hooks s') = text.
Proof.
  intros Hs Hm Hen h' ws Hl Hd. unfold setCommandAndRender; simpl.
  destruct (String.eqb_spec text (command h')) as [Heq|Hne].
  - eexists; repeat split; [exact Hl|symmetry; exact Heq].
  - apply (rerender_quiet s env r el Hs Hm Hen (setCommand text h') ws); assumption.
Qed.

Lemma submit_enabled s env r el :
  inSync s -> mounted s = Some (env, r) -> disabled (view r) = false ->
  listRef (hooks s) = Some el ->
  exists s',
    step Submit s = Normal s'
    /\ writes s'
       = (writes s
          ++ [Post {| method := "post";
                      url := "/instance/" ++ r_uuid r ++ "/console";
                      data := JSON_stringify (r_command r);
                      headers := [("Content-Type", "application/json")] |};
              ScrollTopWrite (scrollHeight el)])%list
    /\ listRef (hooks s') = Some (set_scrollTop (scrollHeight el) el)
    /\ command (hooks s') = "".
Proof.
  intros Hs Hm Hen Hl.
  unfold step, enabledInput. rewrite Hm, Hen.
  unfold onSubmit, sendCommand, scrollToBottom. simpl. rewrite Hl.
  unfold with_hooks, emit; simpl.
  edestruct (setCommandAndRender_quiet s env r (set_scrollTop (scrollHeight el) el) ""
               Hs Hm Hen)
    as (s' & Hre & Hw & Hlr & Hcmd); [| |exists s'; split; [exact Hre|]].
  - reflexivity.
  - reflexivity.
  - rewrite Hw, Hlr, Hcmd. rewrite <- app_assoc. repeat split.
Qed.

Lemma submit_disabled s env r :
  mounted s = Some (env, r) -> disabled (view r) = true ->
  step Submit s = Normal s /\ forall text, step (Change text) s = Normal s.
Proof.
  intros Hm Hd. unfold step, enabledInput. rewrite Hm, Hd. split; reflexivity.
Qed.

(** C5. In every state the console can reach, submitting while the field
    is enabled posts the text of the field, as it is, to
    [/instance/<uuid>/console] of the selected instance, then scrolls the
    list to its bottom, and empties the field. *)
Theorem submit_forwards_command :
  forall events s env r,
    run events initialState = Normal s ->
    mounted s = Some (env, r) ->
    disabled (view r) = false ->
    exists i el s',
      selectedInstance env = Some i
      /\ listRef (hooks s) = Some el
      /\ step Submit s = Normal s'
      /\ writes s'
         = (writes s
            ++ [Post {| method := "post";
                        url := "/instance/" ++ uuid i ++ "/console";
                        data := JSON_stringify (command (hooks s));
                        headers := [("Content-Type", "application/json")] |};
                ScrollTopWrite (scrollHeight el)])%list
      /\ listRef (hooks s') = Some (set_scrollTop (scrollHeight el) el)
      /\ command (hooks s') = "".
Proof.
  intros events s env r Hrun Hm Hen.
  pose proof (reachable_inSync _ _ Hrun) as Hs.
  pose proof Hs as Hs'. unfold inSync in Hs'. rewrite Hm in Hs'.
  destruct Hs' as (i & Hsel & Hu & Hc & _ & _ & _ & Hlist).
  destruct (Hlist Hen) as [el Hl].
  destruct (submit_enabled s env r el Hs Hm Hen Hl) as (s' & Hstep & Hw & Hlr & Hcmd).
  exists i, el, s'. rewrite <- Hu, <- Hc. repeat split; assumption.
Qed.

Lemma submit_forwards_command_witness :
  exists i el s',
    selectedInstance (console server authorized log0 live) = Some i
    /\ listRef (hooks typed) = Some el
    /\ step Submit typed = Normal s'
    /\ writes s'
       = (writes typed
          ++ [Post {| method := "post";
                      url := "/instance/" ++ uuid i ++ "/console";
                      data := JSON_stringify (command (hooks typed));
                      headers := [("Content-Type", "application/json")] |};
              ScrollTopWrite (scrollHeight el)])%list
    /\ listRef (hooks s') = Some (set_scrollTop (scrollHeight el) el)
    /\ command (hooks s') = "".
Proof.
  eapply (submit_forwards_command sayHi typed (console server authorized log0 live));
    reflexivity.
Defined.

(** The request of that run. *)
Example sayHi_request :
  exists s,
    step Submit typed = Normal s
    /\ posts (writes s)
       = [{| method := "post";
             url := "/instance/a1b2/console";
             data := String dquote ("say hi" ++ String dquote "");
             headers := [("Content-Type", "application/json")] |}].
Proof. eexists; split; reflexivity. Qed.

(** *** The gate on commands *)

(** C1, as it is worded, fails: while the history is being fetched the
    status is [loading], which is neither [live] nor [live-no-buffer]; the
    field is enabled all the same, and a command typed then reaches the
    transport. *)
Lemma gating_not_exact : ~ blockedExactlyWhenGated.
Proof.
  intros H.
  destruct (instance_renders server authorized
              (fun _ => {| consoleLog := log0; consoleStatus := loading |}) initialHooks)
    as [r Hr].
  pose proof (H _ _ _ _ _ Hr) as [_ Hback].
  assert (Hd : disabled (view r) = true).
  { apply Hback. right; left. split; discriminate. }
  injection Hr as <-. discriminate Hd.
Qed.

Example loading_console_forwards :
  exists s,
    run [Render whileLoading (mkElement 300 0 300); Change "stop"; Submit] initialState
    = Normal s
    /\ posts (writes s)
       = [{| method := "post";
             url := "/instance/a1b2/console";
             data := String dquote ("stop" ++ String dquote "");
             headers := [("Content-Type", "application/json")] |}].
Proof. eexists; split; reflexivity. Qed.

(** *** The scroll that follows the log *)

(** What the effect of lines 41-44 decides on: in a render that shows the
    list and receives a new log array, [scrollTop] is written exactly when
    the flag [usePrevious] hands back is true, whatever the list measures
    before or after the page is updated; otherwise the list stays as the
    browser laid it out. *)
Lemma autoscroll_decision :
  forall (i : InstanceInfo) auth stream layout (s : State),
    let env := mkEnv (Some i) auth stream in
    permissionDenied (auth "can_access_instance_console" (uuid i))
                     (consoleStatus (stream (uuid i))) = false ->
    effectDeps (hooks s) <> Some (array_id (consoleLog (stream (uuid i)))) ->
    exists s',
      render env layout s = Normal s'
      /\ writes s'
         = (writes s
            ++ (if truthy_flag (previous (hooks s))
                then [ScrollTopWrite (scrollHeight layout)] else []))%list
      /\ listRef (hooks s')
         = Some (if truthy_flag (previous (hooks s))
                 then set_scrollTop (scrollHeight layout) layout else layout)
      /\ previous (hooks s') = Some (isAtBottom (listRef (hooks s))).
Proof.
  intros i auth stream layout s env Hp Hd.
  destruct (render_selected i auth stream layout s) as (r & Hr & Hrender).
  destruct (GameConsole_selected i auth stream (hooks s))
    as (r' & Hr' & _ & _ & Hlog & Hat & Hold & _ & _ & Hpane).
  rewrite Hr in Hr'; injection Hr' as <-.
  fold env in Hrender. exists (commit env r layout s). split; [exact Hrender|].
  pose proof (commit_scroll env r layout s) as Hcs. simpl in Hcs.
  unfold attached in Hcs. rewrite Hpane, Hp in Hcs.
  assert (Hch : depsChanged r (hooks s) = true).
  { unfold depsChanged. destruct (effectDeps (hooks s)) as [d|]; [|reflexivity].
    rewrite Hlog. apply negb_true_iff, Nat.eqb_neq. congruence. }
  rewrite Hch, Hold in Hcs. simpl in Hcs.
  rewrite commit_previous, Hat. destruct Hcs; repeat split; assumption.
Qed.

(** C2, on the scenario of the reader who scrolled up. The console is
    opened, the history arrives and the list is scrolled to its bottom; the
    reader scrolls back to the top, 1000 pixels from the bottom; a line
    arrives. The flag the effect tests is the one measured in the render of
    the history, and it is true: the list is scrolled to the bottom again. *)
Theorem autoscroll_yanks_reader :
  exists s s',
    run [opened; historyArrives; readerScrollsUp] initialState = Normal s
    /\ listRef (hooks s) = Some (mkElement 1300 0 300)
    /\ isAtBottom (listRef (hooks s)) = false
    /\ previous (hooks s) = Some true
    /\ step lineArrives s = Normal s'
    /\ writes s' = (writes s ++ [ScrollTopWrite 1320])%list
    /\ listRef (hooks s') = Some (mkElement 1320 1020 300).
Proof. do 2 eexists; repeat split; reflexivity. Qed.

(** The other way round: the list is now at its bottom, and the line that
    arrives next does not scroll it, because the flag is the one measured
    while the reader was at the top. *)
Example autoscroll_misses_reader :
  exists s s',
    run [opened; historyArrives; readerScrollsUp; lineArrives] initialState = Normal s
    /\ listRef (hooks s) = Some (mkElement 1320 1020 300)
    /\ isAtBottom (listRef (hooks s)) = true
    /\ previous (hooks s) = Some false
    /\ step nextLineArrives s = Normal s'
    /\ writes s' = writes s
    /\ listRef (hooks s') = Some (mkElement 1340 1020 300).
Proof. do 2 eexists; repeat split; reflexivity. Qed.

(** *** The first render *)

(** C10, as it is worded, fails: the console is opened with an empty log
    and the history arrives; this first change of the log scrolls the list,
    because the flag of the first render, made without a list, is true. *)
Lemma first_change_scrolls : ~ firstChangeNeverScrolls.
Proof.
  intros H.
  specialize (H (console server authorized log0 live) (mkElement 300 0 300)
                (console server authorized log1 live) (mkElement 1300 0 300)
                _ _ _ eq_refl eq_refl eq_refl eq_refl).
  discriminate H.
Qed.

(** A commit whose captured flag is absent writes nothing. *)
Lemma commit_without_flag env r layout s :
  r_oldIsAtBottom r = None ->
  writes (commit env r layout s) = writes s
  /\ listRef (hooks (commit env r layout s)) = attached (view r) layout.
Proof.
  intros Hold.
  pose proof (commit_scroll env r layout s) as Hcs. simpl in Hcs.
  rewrite Hold, andb_false_r in Hcs.
  destruct (attached (view r) layout); [rewrite app_nil_r in Hcs|]; exact Hcs.
Qed.

(** C10, amended. The effect runs for the first time after the first
    render. [usePrevious] has nothing to hand back then, so whatever the log
    holds nothing is written: the list, when there is one, stays as the
    browser laid it out; the flag kept for the next render is [true]. *)
Theorem mount_issues_no_scroll :
  forall (i : InstanceInfo) auth stream layout,
    let env := mkEnv (Some i) auth stream in
    exists r s',
      GameConsole env initialHooks = Normal r
      /\ r_oldIsAtBottom r = None
      /\ render env layout initialState = Normal s'
      /\ effectDeps (hooks s') = Some (array_id (consoleLog (stream (uuid i))))
      /\ writes s' = []
      /\ listRef (hooks s') = attached (view r) layout
      /\ previous (hooks s') = Some true.
Proof.
  intros i auth stream layout env.
  destruct (render_selected i auth stream layout initialState) as (r & Hr & Hrender).
  destruct (GameConsole_selected i auth stream initialHooks)
    as (r' & Hr' & _ & _ & Hlog & Hat & Hold & _).
  simpl in Hr. rewrite Hr in Hr'; injection Hr' as <-.
  exists r, (commit env r layout initialState).
  destruct (commit_without_flag env r layout initialState Hold) as [Hw Hl].
  rewrite commit_effectDeps, commit_previous, Hlog, Hat.
  repeat split; assumption.
Qed.

(** After that, the first new log array scrolls a list that is shown. *)
Lemma first_change_after_mount :
  forall (i : InstanceInfo) auth stream layout stream' layout' s,
    let can := auth "can_access_instance_console" (uuid i) in
    render (mkEnv (Some i) auth stream) layout initialState = Normal s ->
    permissionDenied can (consoleStatus (stream' (uuid i))) = false ->
    array_id (consoleLog (stream' (uuid i))) <> array_id (consoleLog (stream (uuid i))) ->
    exists s',
      render (mkEnv (Some i) auth stream') layout' s = Normal s'
      /\ writes s' = [ScrollTopWrite (scrollHeight layout')].
Proof.
  intros i auth stream layout stream' layout' s can Hs Hp Hne.
  destruct (render_selected i auth stream layout initialState) as (r & Hr & Hrender).
  destruct (GameConsole_selected i auth stream initialHooks)
    as (r' & Hr' & _ & _ & Hlog & Hat & Hold & _).
  simpl in Hr. rewrite Hr in Hr'; injection Hr' as <-.
  rewrite Hrender in Hs; injection Hs as <-.
  destruct (commit_without_flag (mkEnv (Some i) auth stream) r layout initialState Hold)
    as [Hw _].
  destruct (autoscroll_decision i auth stream' layout'
              (commit (mkEnv (Some i) auth stream) r layout initialState) Hp)
    as (s' & Hr' & Hw' & _).
  { rewrite commit_effectDeps, Hlog. congruence. }
  exists s'. split; [exact Hr'|].
  rewrite Hw', Hw, commit_previous, Hat. reflexivity.
Qed.

End GameConsoleProps.

(** ** Properties of the line buffer *)

Module LineBufferProps.
Import LineBuffer.

Local Open Scope N_scope.

Ltac order_cases :=
  repeat match goal with
         | |- context [?a <? ?b] => destruct (N.ltb_spec a b)
         | |- context [?a =? ?b] => destruct (N.eqb_spec a b)
         | H : context [?a <? ?b] |- _ => destruct (N.ltb_spec a b)
         | H : context [?a =? ?b] |- _ => destruct (N.eqb_spec a b)
         end.

(** *** Order *)

Lemma increasing_Sorted (ns : list N) : increasing ns = true <-> Sorted N.lt ns.
Proof.
  induction ns as [|a [|b rest] IH].
  - split; [constructor|reflexivity].
  - split; [repeat constructor|reflexivity].
  - change (increasing (a :: b :: rest)) with ((a <? b) && increasing (b :: rest))%bool.
    rewrite andb_true_iff, N.ltb_lt, IH. split.
    + intros [Hab Hs]. constructor; [exact Hs|constructor; exact Hab].
    + intros Hs. inversion Hs as [|? ? Hs' Hhd]; subst.
      inversion Hhd; subst. split; assumption.
Qed.

Lemma insert_HdRel (a : N) (x : ConsoleLine) (buf : LineBuffer) :
  a < id x -> HdRel N.lt a (ids buf) -> HdRel N.lt a (ids (insert x buf)).
Proof.
  intros Hax Hhd. destruct buf as [|y rest]; simpl.
  - constructor; exact Hax.
  - order_cases; simpl; try exact Hhd.
    + constructor; exact Hax.
    + inversion Hhd; subst. constructor; assumption.
Qed.

Lemma insert_Sorted (x : ConsoleLine) (buf : LineBuffer) :
  Sorted N.lt (ids buf) -> Sorted N.lt (ids (insert x buf)).
Proof.
  induction buf as [|y rest IH]; simpl; intros Hs.
  - repeat constructor.
  - inversion Hs as [|? ? Hrest Hhd]; subst.
    order_cases; simpl.
    + constructor; [exact Hs|constructor; assumption].
    + exact Hs.
    + constructor; [apply IH; exact Hrest|].
      apply insert_HdRel; [lia|exact Hhd].
Qed.

Lemma append_Sorted (batch : list ConsoleLine) :
  forall buf, Sorted N.lt (ids buf) -> Sorted N.lt (ids (append batch buf)).
Proof.
  unfold append. induction batch as [|x rest IH]; simpl; intros buf Hs.
  - exact Hs.
  - apply IH, insert_Sorted, Hs.
Qed.

Lemma deliver_Sorted (d : Delivery) (buf : LineBuffer) :
  wellFormed d -> Sorted N.lt (ids buf) -> Sorted N.lt (ids (deliver buf d)).
Proof.
  destruct d as [batch|batch|]; simpl; intros Hwf Hs.
  - apply increasing_Sorted, Hwf.
  - apply append_Sorted, Hs.
  - constructor.
Qed.

Lemma deliverAll_Sorted (ds : list Delivery) :
  forall buf,
    Forall wellFormed ds -> Sorted N.lt (ids buf) ->
    Sorted N.lt (ids (deliverAll ds buf)).
Proof.
  unfold deliverAll. induction ds as [|d rest IH]; simpl; intros buf Hwf Hs.
  - exact Hs.
  - inversion Hwf; subst. apply IH; [assumption|].
    apply deliver_Sorted; assumption.
Qed.

Lemma StronglySorted_lt_NoDup (ns : list N) : StronglySorted N.lt ns -> NoDup ns.
Proof.
  induction 1 as [|a rest Hs IH Hall]; constructor; [|exact IH].
  intros Hin. rewrite Forall_forall in Hall.
  specialize (Hall a Hin). lia.
Qed.

(** C4. Whatever is delivered to an empty buffer, in whatever order
    (histories as the transport returns them, in increasing order; live
    batches unordered, overlapping, repeated), the snapshot is strictly
    increasing by [id] and no [id] occurs twice. *)
Theorem snapshot_strictly_increasing :
  forall ds : list Delivery,
    Forall wellFormed ds ->
    StronglySorted N.lt (ids (snapshot (deliverAll ds [])))
    /\ NoDup (ids (snapshot (deliverAll ds []))).
Proof.
  intros ds Hwf.
  assert (Hs : StronglySorted N.lt (ids (snapshot (deliverAll ds [])))).
  { apply Sorted_StronglySorted; [exact N.lt_trans|].
    apply deliverAll_Sorted; [exact Hwf|constructor]. }
  split; [exact Hs|apply StronglySorted_lt_NoDup, Hs].
Qed.

Lemma snapshot_strictly_increasing_witness :
  StronglySorted N.lt (ids (snapshot (deliverAll Scenarios.reconnecting [])))
  /\ NoDup (ids (snapshot (deliverAll Scenarios.reconnecting []))).
Proof.
  apply (snapshot_strictly_increasing Scenarios.reconnecting).
  repeat constructor.
Defined.

(** C4, as it is worded, fails: a history batch replaces the contents as it
    is, so a history that is not in order is a snapshot that is not in order. *)
Lemma unordered_history_is_kept :
  ~ (forall ds : list Delivery,
        StronglySorted N.lt (ids (snapshot (deliverAll ds [])))
        /\ NoDup (ids (snapshot (deliverAll ds [])))).
Proof.
  intros H.
  destruct (H [History [Scenarios.line 2; Scenarios.line 1]]) as [Hs _].
  inversion Hs as [|a rest _ Hall]; subst.
  inversion Hall as [|b rest' Hlt _]; subst.
  simpl in Hlt. lia.
Qed.

Example repeated_history_is_kept :
  ids (snapshot (deliverAll [History [Scenarios.line 1; Scenarios.line 1]] [])) = [1; 1].
Proof. reflexivity. Qed.

Example reconnecting_snapshot :
  ids (snapshot (deliverAll Scenarios.reconnecting [])) = [1; 2; 3; 4; 5; 6].
Proof. reflexivity. Qed.

(** *** Re-delivery *)

Lemma found_insert_same (x : ConsoleLine) (buf : LineBuffer) :
  found x (insert x buf) = true.
Proof.
  induction buf as [|y rest IH]; simpl.
  - rewrite N.ltb_irrefl, N.eqb_refl. reflexivity.
  - destruct (N.ltb_spec (id x) (id y)) as [Hlt|Hge]; simpl.
    + rewrite N.ltb_irrefl, N.eqb_refl. reflexivity.
    + destruct (N.eqb_spec (id x) (id y)) as [Heq|Hne]; simpl.
      * rewrite Heq, N.ltb_irrefl, N.eqb_refl. reflexivity.
      * destruct (N.ltb_spec (id x) (id y)); [lia|].
        destruct (N.eqb_spec (id x) (id y)); [contradiction|exact IH].
Qed.

Lemma found_insert_other (x y : ConsoleLine) (buf : LineBuffer) :
  found x buf = true -> found x (insert y buf) = true.
Proof.
  induction buf as [|z rest IH]; simpl; [discriminate|].
  destruct (N.ltb_spec (id x) (id z)) as [Hxz|Hxz]; [discriminate|].
  intros Hf.
  destruct (N.ltb_spec (id y) (id z)) as [Hyz|Hyz]; simpl.
  - destruct (N.ltb_spec (id x) (id y)); [lia|].
    destruct (N.eqb_spec (id x) (id y)); [reflexivity|].
    destruct (N.ltb_spec (id x) (id z)); [lia|exact Hf].
  - destruct (N.eqb_spec (id y) (id z)) as [Heq|Hne]; simpl.
    + destruct (N.ltb_spec (id x) (id z)); [lia|exact Hf].
    + destruct (N.ltb_spec (id x) (id z)); [lia|].
      destruct (N.eqb_spec (id x) (id z)); [reflexivity|].
      apply IH, Hf.
Qed.

(** A line whose [id] the buffer has at its place is dropped. *)
Lemma insert_found (x : ConsoleLine) (buf : LineBuffer) :
  found x buf = true -> insert x buf = buf.
Proof.
  induction buf as [|y rest IH]; simpl; [discriminate|].
  destruct (N.ltb_spec (id x) (id y)); [discriminate|].
  destruct (N.eqb_spec (id x) (id y)); [reflexivity|].
  intros Hf. rewrite (IH Hf). reflexivity.
Qed.

Lemma found_append (x : ConsoleLine) (batch : list ConsoleLine) :
  forall buf, found x buf = true -> found x (append batch buf) = true.
Proof.
  unfold append. induction batch as [|y rest IH]; simpl; intros buf Hf.
  - exact Hf.
  - apply IH, found_insert_other, Hf.
Qed.

Lemma append_found (batch : list ConsoleLine) :
  forall buf, Forall (fun x => found x buf = true) batch -> append batch buf = buf.
Proof.
  unfold append. induction batch as [|x rest IH]; simpl; intros buf Hall.
  - reflexivity.
  - inversion Hall as [|? ? Hx Hrest]; subst.
    rewrite (insert_found x buf Hx). apply IH, Hrest.
Qed.

Lemma append_finds (batch : list ConsoleLine) :
  forall buf, Forall (fun x => found x (append batch buf) = true) batch.
Proof.
  induction batch as [|x rest IH]; intros buf; constructor.
  - change (append (x :: rest) buf) with (append rest (insert x buf)).
    apply found_append, found_insert_same.
  - change (append (x :: rest) buf) with (append rest (insert x buf)).
    apply IH.
Qed.

(** In an ordered buffer, having the [id] is having it at its place. *)
Lemma found_In (x : ConsoleLine) (buf : LineBuffer) :
  Sorted N.lt (ids buf) -> In (id x) (ids buf) -> found x buf = true.
Proof.
  intros Hs. apply Sorted_StronglySorted in Hs;
    [|exact N.lt_trans].
  induction buf as [|y rest IH]; simpl; [contradiction|].
  inversion Hs as [|? ? Hrest Hall]; subst.
  intros [Heq|Hin].
  - rewrite Heq, N.ltb_irrefl, N.eqb_refl. reflexivity.
  - rewrite Forall_forall in Hall. specialize (Hall _ Hin).
    destruct (N.ltb_spec (id x) (id y)); [lia|].
    destruct (N.eqb_spec (id x) (id y)); [reflexivity|].
    apply IH; assumption.
Qed.

Lemma insert_known_id (x : ConsoleLine) (buf : LineBuffer) :
  Sorted N.lt (ids buf) -> In (id x) (ids buf) -> insert x buf = buf.
Proof. intros Hs Hin. apply insert_found, found_In; assumption. Qed.

(** C8. Appending a batch a second time changes nothing: the snapshot after
    two appends of the batch is the snapshot after one, for every batch and
    every buffer, because every line of the batch is then found in the
    buffer and dropped. *)
Theorem append_idempotent :
  forall (batch : list ConsoleLine) (buf : LineBuffer),
    snapshot (append batch (append batch buf)) = snapshot (append batch buf).
Proof.
  intros batch buf. unfold snapshot.
  apply append_found, append_finds.
Qed.

Example append_twice :
  ids (append [Scenarios.line 4; Scenarios.line 2; Scenarios.line 4]
         (append [Scenarios.line 4; Scenarios.line 2; Scenarios.line 4]
            [Scenarios.line 1; Scenarios.line 2; Scenarios.line 3]))
  = [1; 2; 3; 4].
Proof. reflexivity. Qed.

End LineBufferProps.

(** ** More on the console: the banner, typing, and whole runs *)

Module ConsoleRunsProps.
Import Js Dom GameConsole Scenarios ConsoleRuns GameConsoleProps.

(** *** The view *)

Lemma consoleStatusMessage_injective (a b : ConsoleStatus) :
  consoleStatusMessage a = consoleStatusMessage b -> a = b.
Proof. destruct a, b; simpl; intros H; try reflexivity; discriminate H. Qed.

(** X1. The line in the corner tells the status of the stream: it is absent for
    [no-permission] only, and two renders that show the same line have the
    same status. *)
Theorem statusBanner_identifies_status :
  forall (i i' : InstanceInfo) auth auth' stream stream' (h h' : Hooks),
  exists r r',
    GameConsole (mkEnv (Some i) auth stream) h = Normal r
    /\ GameConsole (mkEnv (Some i') auth' stream') h' = Normal r'
    /\ (statusBanner (view r) = None <-> consoleStatus (stream (uuid i)) = no_permission)
    /\ (statusBanner (view r) = statusBanner (view r') ->
        consoleStatus (stream (uuid i)) = consoleStatus (stream' (uuid i'))).
Proof.
  intros. do 2 eexists. split; [reflexivity|]. split; [reflexivity|]. simpl.
  split.
  - destruct (consoleStatus (stream (uuid i))); simpl; split; congruence.
  - destruct (consoleStatus (stream (uuid i))), (consoleStatus (stream' (uuid i')));
      simpl; intros H; try reflexivity; discriminate H.
Qed.

(** Which message, for which cause: the tests of lines 84-89 in their
    order. *)
Lemma inputMessage_by_cause (can : bool) (st : ConsoleStatus) (i : InstanceInfo) :
  (can = false \/ st = no_permission -> consoleInputMessage can st i = "No permission")
  /\ (can = true -> st <> no_permission -> state i <> "Running" ->
      consoleInputMessage can st i = "Instance is " ++ toLowerCase (state i))
  /\ (can = true -> st <> no_permission -> state i = "Running" -> st = closed ->
      consoleInputMessage can st i = "Console is closed")
  /\ (can = true -> st <> no_permission -> state i = "Running" -> st <> closed ->
      consoleInputMessage can st i = "").
Proof.
  unfold consoleInputMessage.
  destruct (permissionDenied can st) eqn:Hp.
  - apply permissionDenied_iff in Hp.
    repeat split; try reflexivity; intros; destruct Hp; congruence.
  - assert (Hp' : can = true /\ st <> no_permission).
    { split; [destruct can; [reflexivity|discriminate Hp]|].
      intros ->. destruct can; discriminate Hp. }
    destruct Hp' as [Hc Hs].
    destruct (String.eqb_spec (state i) "Running") as [Hr|Hr]; simpl.
    + destruct (ConsoleStatus_eqb st closed) eqn:Hcl.
      * apply ConsoleStatus_eqb_eq in Hcl.
        repeat split; try reflexivity; intros; try congruence.
        destruct H; congruence.
      * assert (st <> closed) by (intros ->; discriminate Hcl).
        repeat split; try reflexivity; intros; try congruence.
        destruct H0; congruence.
    + repeat split; try reflexivity; intros; try congruence.
      destruct H; congruence.
Qed.

(** X2. The placeholder is "Enter command..." exactly when the field is
    enabled, and it is never empty. When the field is disabled the placeholder
    says why: "No permission" when the permission is denied; otherwise
    "Instance is " and the run-state (in lower case, for a run-state in ASCII)
    when the instance is not "Running"; otherwise "Console is closed". *)
Theorem placeholder_invites_when_enabled :
  forall (i : InstanceInfo) auth stream (h : Hooks),
    let can := auth "can_access_instance_console" (uuid i) in
    let st := consoleStatus (stream (uuid i)) in
    exists r,
      GameConsole (mkEnv (Some i) auth stream) h = Normal r
      /\ (placeholder (view r) = "Enter command..." <-> disabled (view r) = false)
      /\ placeholder (view r) <> ""
      /\ (can = false \/ st = no_permission -> placeholder (view r) = "No permission")
      /\ (can = true -> st <> no_permission -> state i <> "Running" ->
          exists shown,
            placeholder (view r) = "Instance is " ++ shown
            /\ (asciiOnly (state i) = true -> shown = toLowerCase (state i)))
      /\ (can = true -> st <> no_permission -> state i = "Running" -> st = closed ->
          placeholder (view r) = "Console is closed").
Proof.
  intros i auth stream h can st.
  destruct (GameConsole_selected i auth stream h)
    as (r & Hr & _ & _ & _ & _ & _ & Hdis & Hph & _).
  fold can st in Hdis, Hph.
  exists r. split; [exact Hr|]. rewrite Hdis, Hph.
  destruct (inputMessage_by_cause can st i) as (H1 & H2 & H3 & _).
  split; [|split; [|split; [|split]]].
  - destruct (inputMessage_cases can st i) as [E|[E|[E|E]]]; rewrite E; simpl;
      split; (discriminate || reflexivity).
  - destruct (inputMessage_cases can st i) as [E|[E|[E|E]]]; rewrite E; simpl;
      discriminate.
  - intros Hd. rewrite (H1 Hd). reflexivity.
  - intros Hc Hs Hrun. rewrite (H2 Hc Hs Hrun).
    exists (toLowerCase (state i)). split; [reflexivity|trivial].
  - intros Hc Hs Hrun Hcl. rewrite (H3 Hc Hs Hrun Hcl). reflexivity.
Qed.

(** *** Typing *)

Lemma render_showsCommand env layout s s' :
  render env layout s = Normal s' -> showsCommand s'.
Proof.
  intros H. destruct env as [[i|] auth stream]; [|discriminate H].
  unfold render in H; simpl in H. injection H as <-.
  unfold showsCommand. rewrite commit_mounted. reflexivity.
Qed.

Lemma rerender_showsCommand s s' :
  showsCommand s -> rerender s = Normal s' -> showsCommand s'.
Proof.
  unfold rerender. intros Hs H.
  destruct (mounted s) as [[env r]|] eqn:Hm.
  - destruct (listRef (hooks s)); eapply render_showsCommand; exact H.
  - injection H as <-. exact Hs.
Qed.

Lemma setCommandAndRender_showsCommand text s s' :
  showsCommand s -> setCommandAndRender text s = Normal s' -> showsCommand s'.
Proof.
  unfold setCommandAndRender. intros Hs H.
  destruct (String.eqb text (command (hooks s))).
  - injection H as <-. exact Hs.
  - eapply rerender_showsCommand; [|exact H]. exact Hs.
Qed.

Lemma sendCommand_showsCommand r text s :
  showsCommand s -> showsCommand (sendCommand r text s).
Proof.
  unfold showsCommand, sendCommand, scrollToBottom; simpl.
  destruct (listRef (hooks s)); simpl; trivial.
Qed.

Lemma step_showsCommand e s s' :
  showsCommand s -> step e s = Normal s' -> showsCommand s'.
Proof.
  intros Hs H. destruct e as [env layout|top|text|]; simpl in H.
  - eapply render_showsCommand; exact H.
  - injection H as <-. unfold showsCommand, userScroll in *.
    destruct (listRef (hooks s)); exact Hs.
  - destruct (enabledInput s).
    + eapply setCommandAndRender_showsCommand; eassumption.
    + injection H as <-. exact Hs.
  - destruct (enabledInput s).
    + eapply setCommandAndRender_showsCommand; [|exact H].
      apply sendCommand_showsCommand, Hs.
    + injection H as <-. exact Hs.
Qed.

Lemma run_showsCommand events :
  forall s s', showsCommand s -> run events s = Normal s' -> showsCommand s'.
Proof.
  induction events as [|e rest IH]; simpl; intros s s' Hs H.
  - injection H as <-. exact Hs.
  - destruct (step e s) as [s1|m] eqn:He; simpl in H; [|discriminate H].
    eapply IH; [|exact H]. eapply step_showsCommand; eassumption.
Qed.

(** A render caused by the state of the component, while the field is
    enabled: the same page again, with the field showing the cell. *)
Lemma rerender_view s env r el :
  inSync s -> mounted s = Some (env, r) -> disabled (view r) = false ->
  forall h' ws,
    listRef h' = Some el -> effectDeps h' = effectDeps (hooks s) ->
    exists s' r',
      rerender (mkState h' (mounted s) ws) = Normal s'
      /\ mounted s' = Some (env, r')
      /\ disabled (view r') = false
      /\ value (view r') = command h'
      /\ writes s' = ws
      /\ listRef (hooks s') = Some el
      /\ command (hooks s') = command h'
      /\ previous (hooks s') = Some (isAtBottom (Some el))
      /\ effectDeps (hooks s') = effectDeps (hooks s).
Proof.
  intros Hs Hm Hen h' ws Hl Hd.
  unfold inSync in Hs. rewrite Hm in Hs.
  destruct Hs as (i & Hsel & Hu & Hc & Hlog & Hdeps & Hdis & _).
  destruct env as [sel auth stream]; simpl in *; subst sel.
  set (env := mkEnv (Some i) auth stream) in *.
  set (s1 := mkState h' (Some (env, r)) ws).
  destruct (render_selected i auth stream el s1) as (r2 & Hr2 & Hrender).
  fold env in Hr2, Hrender.
  destruct (GameConsole_selected i auth stream h')
    as (r2' & Hr2' & _ & _ & Hlog2 & Hat & _ & Hdis2 & _ & Hpane).
  fold env in Hr2'. simpl in Hr2. rewrite Hr2 in Hr2'; injection Hr2' as <-.
  assert (Hval : value (view r2) = command h').
  { unfold env in Hr2. simpl in Hr2. injection Hr2 as <-. reflexivity. }
  unfold rerender. rewrite Hm. simpl. rewrite Hl. fold s1. rewrite Hrender.
  exists (commit env r2 el s1), r2. split; [reflexivity|].
  pose proof (commit_scroll env r2 el s1) as Hcs.
  simpl in Hcs. unfold attached in Hcs. rewrite Hpane in Hcs.
  rewrite Hdis in Hen. rewrite (disabled_false_permitted _ _ _ Hen) in Hcs.
  assert (Hno : depsChanged r2 h' = false).
  { unfold depsChanged. rewrite Hd, Hdeps, Hlog2, Hlog, Nat.eqb_refl. reflexivity. }
  rewrite Hno in Hcs. simpl in Hcs. rewrite app_nil_r in Hcs.
  destruct Hcs as [Hw Hr].
  split; [apply commit_mounted|].
  split; [rewrite Hdis2; exact Hen|].
  split; [exact Hval|].
  split; [exact Hw|].
  split; [exact Hr|].
  split; [apply commit_command|].
  split; [rewrite commit_previous, Hat, Hl; reflexivity|].
  rewrite commit_effectDeps, Hlog2, Hdeps, Hlog. reflexivity.
Qed.

(** What typing does while the field is enabled. *)
Lemma change_enabled s env r el text :
  inSync s -> showsCommand s ->
  mounted s = Some (env, r) -> disabled (view r) = false ->
  listRef (hooks s) = Some el ->
  exists s' r',
    step (Change text) s = Normal s'
    /\ mounted s' = Some (env, r')
    /\ disabled (view r') = false
    /\ value (view r') = text
    /\ writes s' = writes s
    /\ listRef (hooks s') = Some el
    /\ command (hooks s') = text.
Proof.
  intros Hs Hshow Hm Hen Hl.
  unfold step, enabledInput. rewrite Hm, Hen.
  unfold onChange, setCommandAndRender.
  destruct (String.eqb_spec text (command (hooks s))) as [Heq|Hne].
  - exists s, r. pose proof Hs as Hs'. unfold inSync in Hs'. rewrite Hm in Hs'.
    destruct Hs' as (i & Hsel & _ & Hc & _).
    unfold showsCommand in Hshow. rewrite Hm in Hshow.
    rewrite Hshow, Hc. repeat split; auto.
  - destruct (rerender_view s env r el Hs Hm Hen (setCommand text (hooks s)) (writes s))
      as (s' & r' & Hre & Hm' & Hen' & Hval & Hw & Hlr & Hcmd & _); [exact Hl|reflexivity|].
    exists s', r'. repeat split; assumption.
Qed.

Lemma reachable_showsCommand events s :
  run events initialState = Normal s -> showsCommand s.
Proof. apply run_showsCommand. exact I. Qed.

(** X3. Typing never posts and never scrolls: in every state the console can
    reach, an edit of the field leaves the writes and the list as they are.
    When the field is enabled the cell and the field on screen hold the new
    text; when it is disabled, or nothing is mounted, the state is unchanged. *)
Theorem typing_never_writes :
  forall events s text,
    run events initialState = Normal s ->
    exists s',
      step (Change text) s = Normal s'
      /\ writes s' = writes s
      /\ listRef (hooks s') = listRef (hooks s)
      /\ match enabledInput s with
         | Some _ =>
             command (hooks s') = text
             /\ exists env r', mounted s' = Some (env, r') /\ value (view r') = text
         | None => s' = s
         end.
Proof.
  intros events s text Hrun.
  pose proof (reachable_inSync _ _ Hrun) as Hs.
  pose proof (reachable_showsCommand _ _ Hrun) as Hshow.
  destruct (enabledInput s) as [r|] eqn:He.
  - unfold enabledInput in He.
    destruct (mounted s) as [[env r0]|] eqn:Hm; [|discriminate He].
    destruct (disabled (view r0)) eqn:Hen; [discriminate He|].
    pose proof Hs as Hs'. unfold inSync in Hs'. rewrite Hm in Hs'.
    destruct Hs' as (i & _ & _ & _ & _ & _ & _ & Hlist).
    destruct (Hlist Hen) as [el Hl].
    destruct (change_enabled s env r0 el text Hs Hshow Hm Hen Hl)
      as (s' & r' & Hstep & Hm' & _ & Hval & Hw & Hlr & Hcmd).
    exists s'. rewrite Hl. repeat split; try assumption.
    exists env, r'. split; assumption.
  - exists s. simpl. rewrite He. repeat split.
Qed.

Lemma typing_never_writes_witness :
  exists s',
    step (Change "list") typed = Normal s'
    /\ writes s' = writes typed
    /\ listRef (hooks s') = listRef (hooks typed)
    /\ match enabledInput typed with
       | Some _ =>
           command (hooks s') = "list"
           /\ exists env r', mounted s' = Some (env, r') /\ value (view r') = "list"
       | None => s' = typed
       end.
Proof. apply (typing_never_writes sayHi typed "list"). reflexivity. Defined.

(** *** Submitting *)

Lemma submit_view s env r el :
  inSync s -> showsCommand s ->
  mounted s = Some (env, r) -> disabled (view r) = false ->
  listRef (hooks s) = Some el ->
  exists s' r',
    step Submit s = Normal s'
    /\ mounted s' = Some (env, r')
    /\ disabled (view r') = false
    /\ value (view r') = ""
    /\ effectDeps (hooks s') = effectDeps (hooks s)
    /\ (command (hooks s) <> "" ->
        previous (hooks s')
        = Some (isAtBottom (Some (set_scrollTop (scrollHeight el) el)))).
Proof.
  intros Hs Hshow Hm Hen Hl.
  unfold step, enabledInput. rewrite Hm, Hen.
  unfold onSubmit, sendCommand, scrollToBottom. simpl. rewrite Hl.
  unfold with_hooks, emit, setCommandAndRender; simpl.
  destruct (command (hooks s)) as [|c0 rest] eqn:Hcmd.
  - eexists; exists r.
    unfold showsCommand in Hshow. rewrite Hm in Hshow.
    unfold inSync in Hs. rewrite Hm in Hs. destruct Hs as (i & _ & _ & Hc & _).
    split; [reflexivity|]. simpl.
    split; [exact Hm|]. split; [exact Hen|].
    split; [rewrite Hshow, Hc; exact Hcmd|].
    split; [reflexivity|]. intros Hne. congruence.
  - edestruct (rerender_view s env r (set_scrollTop (scrollHeight el) el) Hs Hm Hen)
      as (s' & r' & Hre & Hm' & Hen' & Hval & _ & _ & _ & Hprev & Hdeps);
      [| |exists s', r'; split; [exact Hre|]].
    + reflexivity.
    + reflexivity.
    + repeat split; try assumption. intros _; exact Hprev.
Qed.

(** X4. What the user types is what is sent: in every state the console can
    reach with the field enabled, typing a text and pressing Enter posts that
    text, once, to the console of the selected instance, and leaves the field
    empty on screen. *)
Theorem typed_then_submitted :
  forall events s env r text,
    run events initialState = Normal s ->
    mounted s = Some (env, r) ->
    disabled (view r) = false ->
    exists i s' r',
      selectedInstance env = Some i
      /\ run [Change text; Submit] s = Normal s'
      /\ posts (writes s')
         = (posts (writes s)
            ++ [{| method := "post";
                   url := "/instance/" ++ uuid i ++ "/console";
                   data := JSON_stringify text;
                   headers := [("Content-Type", "application/json")] |}])%list
      /\ command (hooks s') = ""
      /\ mounted s' = Some (env, r')
      /\ value (view r') = "".
Proof.
  intros events s env r text Hrun Hm Hen.
  pose proof (reachable_inSync _ _ Hrun) as Hs.
  pose proof (reachable_showsCommand _ _ Hrun) as Hshow.
  pose proof Hs as Hs'. unfold inSync in Hs'. rewrite Hm in Hs'.
  destruct Hs' as (i & Hsel & _ & _ & _ & _ & _ & Hlist).
  destruct (Hlist Hen) as [el Hl].
  destruct (change_enabled s env r el text Hs Hshow Hm Hen Hl)
    as (s1 & r1 & Hstep1 & Hm1 & Hen1 & _ & Hw1 & Hl1 & Hcmd1).
  pose proof (step_inSync _ _ _ Hs Hstep1) as Hs1.
  pose proof (step_showsCommand _ _ _ Hshow Hstep1) as Hshow1.
  destruct (submit_enabled s1 env r1 el Hs1 Hm1 Hen1 Hl1)
    as (s2 & Hstep2 & Hw2 & _ & Hcmd2).
  destruct (submit_view s1 env r1 el Hs1 Hshow1 Hm1 Hen1 Hl1)
    as (s2' & r2 & Hstep2' & Hm2 & _ & Hval2 & _).
  rewrite Hstep2 in Hstep2'. injection Hstep2' as <-.
  unfold inSync in Hs1. rewrite Hm1 in Hs1.
  destruct Hs1 as (i1 & Hsel1 & Hu1 & Hc1 & _).
  rewrite Hsel in Hsel1. injection Hsel1 as <-.
  exists i, s2, r2. split; [exact Hsel|].
  split; [cbn [run]; rewrite Hstep1; cbn [bind]; rewrite Hstep2; reflexivity|].
  split; [rewrite Hw2, posts_app, Hw1, Hu1, Hc1, Hcmd1; reflexivity|].
  repeat split; assumption.
Qed.

Lemma typed_then_submitted_witness :
  exists i s' r',
    selectedInstance (console server authorized log0 live) = Some i
    /\ run [Change "list"; Submit] typed = Normal s'
    /\ posts (writes s')
       = (posts (writes typed)
          ++ [{| method := "post";
                 url := "/instance/" ++ uuid i ++ "/console";
                 data := JSON_stringify "list";
                 headers := [("Content-Type", "application/json")] |}])%list
    /\ command (hooks s') = ""
    /\ mounted s' = Some (console server authorized log0 live, r')
    /\ value (view r') = "".
Proof.
  eapply (typed_then_submitted sayHi typed (console server authorized log0 live));
    reflexivity.
Defined.

(** *** Whole runs *)

Lemma render_posts env layout s s' :
  render env layout s = Normal s' -> posts (writes s') = posts (writes s).
Proof.
  intros H. destruct env as [[i|] auth stream]; [|discriminate H].
  unfold render in H; simpl in H. injection H as <-.
  match goal with
  | |- posts (writes (commit ?env ?r ?layout ?s)) = _ =>
      pose proof (commit_scroll env r layout s) as Hcs
  end.
  simpl in Hcs.
  destruct (attached _ layout); destruct Hcs as [-> _]; [|reflexivity].
  rewrite posts_app.
  destruct (_ && _); simpl; rewrite app_nil_r; reflexivity.
Qed.

Lemma rerender_posts s s' :
  rerender s = Normal s' -> posts (writes s') = posts (writes s).
Proof.
  unfold rerender. intros H.
  destruct (mounted s) as [[env r]|].
  - destruct (listRef (hooks s)); apply render_posts in H; exact H.
  - injection H as <-. reflexivity.
Qed.

Lemma setCommandAndRender_posts text s s' :
  setCommandAndRender text s = Normal s' -> posts (writes s') = posts (writes s).
Proof.
  unfold setCommandAndRender. intros H.
  destruct (String.eqb text (command (hooks s))).
  - injection H as <-. reflexivity.
  - apply rerender_posts in H. exact H.
Qed.

Lemma sendCommand_posts r text s :
  posts (writes (sendCommand r text s))
  = (posts (writes s)
     ++ [{| method := "post";
            url := "/instance/" ++ r_uuid r ++ "/console";
            data := JSON_stringify text;
            headers := [("Content-Type", "application/json")] |}])%list.
Proof.
  unfold sendCommand, scrollToBottom; simpl.
  destruct (listRef (hooks s)); simpl; rewrite ?posts_app; simpl;
    rewrite ?app_nil_r; reflexivity.
Qed.

(** One event adds at most one request, and only a submission adds one. *)
Lemma step_posts e s s' :
  step e s = Normal s' ->
  posts (writes s') = posts (writes s)
  \/ (e = Submit
      /\ exists q, consoleRequest q /\ posts (writes s') = (posts (writes s) ++ [q])%list).
Proof.
  intros H. destruct e as [env layout|top|text|]; simpl in H.
  - left. eapply render_posts; exact H.
  - left. injection H as <-. unfold userScroll.
    destruct (listRef (hooks s)); reflexivity.
  - left. destruct (enabledInput s).
    + eapply setCommandAndRender_posts; exact H.
    + injection H as <-. reflexivity.
  - destruct (enabledInput s) as [r|].
    + right. split; [reflexivity|].
      apply setCommandAndRender_posts in H. rewrite sendCommand_posts in H.
      eexists; split; [|exact H].
      repeat split; simpl; eexists; reflexivity.
    + left. injection H as <-. reflexivity.
Qed.

Lemma run_posts events :
  forall s s',
    run events s = Normal s' ->
    (List.length (posts (writes s')) <= List.length (posts (writes s)) + submits events)%nat
    /\ (Forall consoleRequest (posts (writes s)) ->
        Forall consoleRequest (posts (writes s'))).
Proof.
  induction events as [|e rest IH]; simpl; intros s s' H.
  - injection H as <-. split; [lia|trivial].
  - destruct (step e s) as [s1|m] eqn:He; simpl in H; [|discriminate H].
    destruct (IH _ _ H) as [Hlen Hall].
    destruct (step_posts _ _ _ He) as [Hsame|(-> & q & Hq & Hadd)].
    + rewrite Hsame in *. split; [|exact Hall].
      destruct e; simpl; lia.
    + rewrite Hadd in *. rewrite length_app in Hlen. simpl in Hlen.
      split; [lia|].
      intros Hs. apply Hall, Forall_app. split; [exact Hs|].
      constructor; [exact Hq|constructor].
Qed.

(** X5. The console talks to the transport only when the user submits: in every
    run there are at most as many requests as presses of Enter, and each one
    is a POST of a JSON string to the console of an instance. *)
Theorem posts_only_from_submits :
  forall events s,
    run events initialState = Normal s ->
    (List.length (posts (writes s)) <= submits events)%nat
    /\ Forall consoleRequest (posts (writes s)).
Proof.
  intros events s Hrun.
  destruct (run_posts events initialState s Hrun) as [Hlen Hall].
  split; [exact Hlen|]. apply Hall. constructor.
Qed.

Lemma posts_only_from_submits_witness :
  (List.length (posts (writes typed)) <= submits sayHi)%nat
  /\ Forall consoleRequest (posts (writes typed)).
Proof. apply (posts_only_from_submits sayHi typed). reflexivity. Defined.

(** *** The effect and its dependency *)

(** X6. A render that brings the log array the effect has already seen (a change
    of status, of permission, of the instance's state) writes nothing: the
    list is where the browser put it, whatever the captured flag. *)
Theorem same_log_never_scrolls :
  forall (i : InstanceInfo) auth stream layout (s : State),
    effectDeps (hooks s) = Some (array_id (consoleLog (stream (uuid i)))) ->
    exists s',
      render (mkEnv (Some i) auth stream) layout s = Normal s'
      /\ writes s' = writes s
      /\ listRef (hooks s')
         = if permissionDenied (auth "can_access_instance_console" (uuid i))
                               (consoleStatus (stream (uuid i)))
           then None else Some layout.
Proof.
  intros i auth stream layout s Hdeps.
  destruct (render_selected i auth stream layout s) as (r & Hr & Hrender).
  destruct (GameConsole_selected i auth stream (hooks s))
    as (r' & Hr' & _ & _ & Hlog & _ & _ & _ & _ & Hpane).
  rewrite Hr in Hr'; injection Hr' as <-.
  eexists. split; [exact Hrender|].
  pose proof (commit_scroll (mkEnv (Some i) auth stream) r layout s) as Hcs.
  simpl in Hcs. unfold attached in Hcs. rewrite Hpane in Hcs.
  assert (Hno : depsChanged r (hooks s) = false).
  { unfold depsChanged. rewrite Hdeps, Hlog, Nat.eqb_refl. reflexivity. }
  rewrite Hno in Hcs. simpl in Hcs.
  destruct (permissionDenied _ _); [exact Hcs|].
  rewrite app_nil_r in Hcs. exact Hcs.
Qed.

Lemma same_log_never_scrolls_witness :
  exists s',
    render (mkEnv (Some stopped) authorized
              (fun _ => {| consoleLog := log0; consoleStatus := closed |}))
           (mkElement 300 0 300) typed = Normal s'
    /\ writes s' = writes typed
    /\ listRef (hooks s')
       = if permissionDenied (authorized "can_access_instance_console" (uuid stopped)) closed
         then None else Some (mkElement 300 0 300).
Proof.
  apply (same_log_never_scrolls stopped authorized
           (fun _ => {| consoleLog := log0; consoleStatus := closed |})
           (mkElement 300 0 300) typed).
  reflexivity.
Defined.

(** *** The scroll to the bottom *)

Lemma set_scrollTop_bottom (el : HTMLOListElement) :
  (0 <= clientHeight el)%Z ->
  scrollTop (set_scrollTop (scrollHeight el) el)
  = Z.max 0 (scrollHeight el - clientHeight el)
  /\ isAtBottom (Some (set_scrollTop (scrollHeight el) el)) = true.
Proof.
  intros Hc. unfold isAtBottom, distanceFromBottom, autoScrollThreshold, set_scrollTop,
    clampTop; simpl.
  split; [lia|]. apply Z.ltb_lt. lia.
Qed.

Lemma scrollToBottom_listRef (s : State) (el : HTMLOListElement) :
  listRef (hooks s) = Some el ->
  listRef (hooks (scrollToBottom s)) = Some (set_scrollTop (scrollHeight el) el).
Proof. unfold scrollToBottom. intros ->. reflexivity. Qed.

(** X7. [scrollToBottom] puts a list at the end of its content, where it counts
    as at the bottom, and a second call leaves it there. *)
Theorem scrollToBottom_lands_at_bottom :
  forall (s : State) (el : HTMLOListElement),
    listRef (hooks s) = Some el ->
    (0 <= clientHeight el)%Z ->
    exists el',
      listRef (hooks (scrollToBottom s)) = Some el'
      /\ scrollHeight el' = scrollHeight el
      /\ clientHeight el' = clientHeight el
      /\ scrollTop el' = Z.max 0 (scrollHeight el - clientHeight el)
      /\ isAtBottom (Some el') = true
      /\ listRef (hooks (scrollToBottom (scrollToBottom s))) = Some el'.
Proof.
  intros s el Hl Hc.
  destruct (set_scrollTop_bottom el Hc) as [Htop Hat].
  pose proof (scrollToBottom_listRef s el Hl) as H1.
  exists (set_scrollTop (scrollHeight el) el).
  split; [exact H1|]. repeat split; try assumption.
  rewrite (scrollToBottom_listRef _ _ H1). reflexivity.
Qed.

Lemma scrollToBottom_lands_at_bottom_witness :
  exists el',
    listRef (hooks (scrollToBottom typed)) = Some el'
    /\ scrollHeight el' = scrollHeight (mkElement 300 0 300)
    /\ clientHeight el' = clientHeight (mkElement 300 0 300)
    /\ scrollTop el'
       = Z.max 0 (scrollHeight (mkElement 300 0 300) - clientHeight (mkElement 300 0 300))
    /\ isAtBottom (Some el') = true
    /\ listRef (hooks (scrollToBottom (scrollToBottom typed))) = Some el'.
Proof.
  apply (scrollToBottom_lands_at_bottom typed (mkElement 300 0 300)).
  - reflexivity.
  - discriminate.
Defined.

(** X8. After a command is sent the console follows the log again: the forced
    scroll leaves the list at its bottom, the render that empties the field
    captures that, and the next new log array scrolls the list. *)
Theorem tailing_resumes_after_command :
  forall events s env r el,
    run events initialState = Normal s ->
    mounted s = Some (env, r) ->
    disabled (view r) = false ->
    listRef (hooks s) = Some el ->
    (0 <= clientHeight el)%Z ->
    command (hooks s) <> "" ->
    exists s1,
      step Submit s = Normal s1
      /\ previous (hooks s1) = Some true
      /\ forall (i : InstanceInfo) auth stream layout,
           permissionDenied (auth "can_access_instance_console" (uuid i))
                            (consoleStatus (stream (uuid i))) = false ->
           effectDeps (hooks s) <> Some (array_id (consoleLog (stream (uuid i)))) ->
           exists s2,
             render (mkEnv (Some i) auth stream) layout s1 = Normal s2
             /\ writes s2 = (writes s1 ++ [ScrollTopWrite (scrollHeight layout)])%list.
Proof.
  intros events s env r el Hrun Hm Hen Hl Hc Hcmd.
  pose proof (reachable_inSync _ _ Hrun) as Hs.
  pose proof (reachable_showsCommand _ _ Hrun) as Hshow.
  destruct (submit_view s env r el Hs Hshow Hm Hen Hl)
    as (s1 & r1 & Hstep & _ & _ & _ & Hdeps & Hprev).
  specialize (Hprev Hcmd).
  destruct (set_scrollTop_bottom el Hc) as [_ Hat]. rewrite Hat in Hprev.
  exists s1. split; [exact Hstep|]. split; [exact Hprev|].
  intros i auth stream layout Hp Hne.
  destruct (autoscroll_decision i auth stream layout s1 Hp) as (s2 & Hr & Hw & _).
  { rewrite Hdeps. exact Hne. }
  exists s2. split; [exact Hr|]. rewrite Hw, Hprev. reflexivity.
Qed.

Lemma tailing_resumes_after_command_witness :
  exists s1,
    step Submit typed = Normal s1
    /\ previous (hooks s1) = Some true
    /\ forall (i : InstanceInfo) auth stream layout,
         permissionDenied (auth "can_access_instance_console" (uuid i))
                          (consoleStatus (stream (uuid i))) = false ->
         effectDeps (hooks typed) <> Some (array_id (consoleLog (stream (uuid i)))) ->
         exists s2,
           render (mkEnv (Some i) auth stream) layout s1 = Normal s2
           /\ writes s2 = (writes s1 ++ [ScrollTopWrite (scrollHeight layout)])%list.
Proof.
  eapply (tailing_resumes_after_command sayHi typed
            (console server authorized log0 live) _ (mkElement 300 0 300));
    try reflexivity.
  - discriminate.
  - discriminate.
Defined.

(** *** The body of the request *)

(** X9. The request says which command was sent: two commands whose requests
    are the same are the same text, character for character. *)
Theorem request_determines_command :
  forall (r : Rendered) (a b : string) (s : State),
    posts (writes (sendCommand r a s)) = posts (writes (sendCommand r b s)) ->
    a = b.
Proof.
  intros r a b s H. rewrite !sendCommand_posts in H.
  apply app_inv_head in H.
  apply JSON_stringify_injective.
  exact (f_equal (fun l => match l with q :: _ => data q | [] => "" end) H).
Qed.

Lemma request_determines_command_witness : "say hi" = "say hi".
Proof.
  apply (request_determines_command
           {| view := mkView None NoPermissionPane "" "" true;
              r_uuid := "a1b2"; r_command := ""; r_consoleLog := log0;
              r_isAtBottom := true; r_oldIsAtBottom := None |}
           "say hi" "say hi" initialState).
  reflexivity.
Defined.

End ConsoleRunsProps.

(** ** Properties of the layout *)

Module DashboardLayoutProps.
Import Js DashboardLayout Pages.

Lemma truthy_nonempty (s : string) : truthy s = true <-> s <> "".
Proof. destruct s; simpl; split; congruence. Qed.

Lemma inherited_nonempty (key : string) : inherited key = true -> key <> "".
Proof. intros H ->. discriminate H. Qed.

Lemma selection_own (env : Env) (i : GameConsole.InstanceInfo) :
  selectionEffect env = Own i
  <-> userLoggedIn env = true
      /\ queryUuid env <> ""
      /\ exists o, dataInstances env = Some o /\ ownProperty (queryUuid env) o = Some i.
Proof.
  destruct env as [q logged data size shown w].
  unfold selectionEffect, instances, hasProperty, getMember; simpl. split.
  - destruct (truthy q) eqn:Hq; [|discriminate].
    apply truthy_nonempty in Hq.
    destruct logged; [|discriminate]. destruct data as [o|]; [|discriminate].
    destruct (ownProperty q o) as [i'|] eqn:Ho.
    + intros E; injection E as <-. repeat split; try assumption. exists o; auto.
    + destruct (inherited q); discriminate.
  - intros (-> & Hq & o & -> & Ho).
    apply truthy_nonempty in Hq. rewrite Hq, Ho. reflexivity.
Qed.

Lemma selection_inherited (env : Env) (name : string) :
  selectionEffect env = Inherited name
  <-> userLoggedIn env = true
      /\ name = queryUuid env
      /\ inherited (queryUuid env) = true
      /\ exists o, dataInstances env = Some o /\ ownProperty (queryUuid env) o = None.
Proof.
  destruct env as [q logged data size shown w].
  unfold selectionEffect, instances, hasProperty, getMember; simpl. split.
  - destruct (truthy q) eqn:Hq; [|discriminate].
    destruct logged; [|discriminate]. destruct data as [o|]; [|discriminate].
    destruct (ownProperty q o) as [i'|] eqn:Ho; [discriminate|].
    destruct (inherited q) eqn:Hi; [|discriminate].
    intros E; injection E as <-. repeat split. exists o; auto.
  - intros (-> & -> & Hi & o & -> & Ho).
    pose proof (inherited_nonempty _ Hi) as Hq. apply truthy_nonempty in Hq.
    rewrite Hq, Ho, Hi. reflexivity.
Qed.


Lemma logged_out_selection (env : Env) :
  userLoggedIn env = false -> instanceList env = [] /\ selectionEffect env = Undefined.
Proof.
  destruct env as [q logged data size shown w]; simpl.
  unfold selectionEffect, instanceList, instances; simpl.
  intros ->. destruct (truthy q); split; reflexivity.
Qed.

(** X10. Which instance the effect selects. An instance is selected exactly
    when the user is logged in, the query parameter is not empty and the list
    has an own entry under it, and the entry is what is selected; a logged-out
    user is given an empty list. The only other value the effect can pass on
    is a member every object inherits, when the query parameter names one. *)
Theorem selection_follows_query :
  forall (env : Env),
    (forall i,
        selectionEffect env = Own i
        <-> userLoggedIn env = true
            /\ queryUuid env <> ""
            /\ exists o, dataInstances env = Some o
                         /\ ownProperty (queryUuid env) o = Some i)
    /\ (forall name,
           selectionEffect env = Inherited name
           <-> userLoggedIn env = true
               /\ name = queryUuid env
               /\ inherited (queryUuid env) = true
               /\ exists o, dataInstances env = Some o
                            /\ ownProperty (queryUuid env) o = None)
    /\ (userLoggedIn env = false -> instanceList env = [] /\ selectionEffect env = Undefined).
Proof.
  intros env. split; [|split].
  - intros i. apply selection_own.
  - intros name. apply selection_inherited.
  - apply logged_out_selection.
Qed.

(** X11. Selecting an instance from a page, for a logged-in user whose
    layout has rendered. [setInstance] puts the uuid in the query parameter
    and goes to "/dashboard". If the query parameter held another value, the
    effect runs again and the cell ends with the entry the list has under the
    uuid, or with nothing when the list has none. If the query parameter held
    that uuid already, no dependency changes, the effect does not run, and the
    cell keeps the instance that was passed, in the list or not. *)
Theorem select_then_effect :
  forall (r : LayoutRuns.Rendering) (c : LayoutRuns.Cells)
         (i : GameConsole.InstanceInfo) (o : InstanceList) (path : string),
    userLoggedIn (LayoutRuns.env r) = true ->
    dataInstances (LayoutRuns.env r) = Some o ->
    GameConsole.uuid i <> "" ->
    inherited (GameConsole.uuid i) = false ->
    LayoutRuns.seenDeps c = Some (LayoutRuns.deps r) ->
    queryAfter (setInstance (Some i)) (queryUuid (LayoutRuns.env r)) = GameConsole.uuid i
    /\ pathAfter (setInstance (Some i)) path = "/dashboard"
    /\ (queryUuid (LayoutRuns.env r) <> GameConsole.uuid i ->
        LayoutRuns.select (Some i) r c
        = Some {| LayoutRuns.instance := ownProperty (GameConsole.uuid i) o;
                  LayoutRuns.seenDeps :=
                    Some (Some (LayoutRuns.instancesId r), GameConsole.uuid i) |})
    /\ (queryUuid (LayoutRuns.env r) = GameConsole.uuid i ->
        LayoutRuns.select (Some i) r c
        = Some {| LayoutRuns.instance := Some i;
                  LayoutRuns.seenDeps := LayoutRuns.seenDeps c |}).
Proof.
  intros [[q logged data size shown w] id] c i o path Hlog Hdata Hne Hinh Hseen;
    simpl in *. subst logged data.
  split; [reflexivity|]. split; [reflexivity|].
  unfold LayoutRuns.select, LayoutRuns.renderEffect, LayoutRuns.depsChanged.
  simpl. rewrite Hseen. unfold LayoutRuns.deps, instances; simpl.
  rewrite Nat.eqb_refl. simpl.
  split.
  - intros Hq. destruct (String.eqb_spec q (GameConsole.uuid i)) as [E|_]; [contradiction|].
    simpl. unfold selectedAfterEffect, selectionEffect, instances, hasProperty, getMember.
    simpl. apply truthy_nonempty in Hne. rewrite Hne.
    destruct (ownProperty (GameConsole.uuid i) o); [reflexivity|].
    rewrite Hinh. reflexivity.
  - intros Hq. destruct (String.eqb_spec q (GameConsole.uuid i)) as [_|E]; [|contradiction].
    reflexivity.
Qed.

Lemma select_then_effect_witness :
  queryAfter (setInstance (Some LayoutRuns.removed)) (queryUuid (LayoutRuns.env LayoutRuns.atHome))
  = GameConsole.uuid LayoutRuns.removed
  /\ pathAfter (setInstance (Some LayoutRuns.removed)) "/" = "/dashboard"
  /\ (queryUuid (LayoutRuns.env LayoutRuns.atHome) <> GameConsole.uuid LayoutRuns.removed ->
      LayoutRuns.select (Some LayoutRuns.removed) LayoutRuns.atHome
        (LayoutRuns.mkCells None (Some (LayoutRuns.deps LayoutRuns.atHome)))
      = Some {| LayoutRuns.instance :=
                  ownProperty (GameConsole.uuid LayoutRuns.removed)
                    [("a1b2", survival); ("c3d4", creative)];
                LayoutRuns.seenDeps :=
                  Some (Some (LayoutRuns.instancesId LayoutRuns.atHome),
                        GameConsole.uuid LayoutRuns.removed) |})
  /\ (queryUuid (LayoutRuns.env LayoutRuns.atHome) = GameConsole.uuid LayoutRuns.removed ->
      LayoutRuns.select (Some LayoutRuns.removed) LayoutRuns.atHome
        (LayoutRuns.mkCells None (Some (LayoutRuns.deps LayoutRuns.atHome)))
      = Some {| LayoutRuns.instance := Some LayoutRuns.removed;
                LayoutRuns.seenDeps :=
                  LayoutRuns.seenDeps
                    (LayoutRuns.mkCells None (Some (LayoutRuns.deps LayoutRuns.atHome))) |}).
Proof.
  apply (select_then_effect LayoutRuns.atHome
           (LayoutRuns.mkCells None (Some (LayoutRuns.deps LayoutRuns.atHome)))
           LayoutRuns.removed [("a1b2", survival); ("c3d4", creative)] "/").
  - reflexivity.
  - reflexivity.
  - discriminate.
  - reflexivity.
  - reflexivity.
Defined.

(** The two cases on the layout of [home]: an instance that is not in the
    list is deselected when the query parameter changes, and stays selected
    when the query parameter already holds its uuid. *)
Example removed_instance_selected :
  LayoutRuns.select (Some LayoutRuns.removed) LayoutRuns.atHome
    (LayoutRuns.mkCells None (Some (LayoutRuns.deps LayoutRuns.atHome)))
  = Some (LayoutRuns.mkCells None (Some (Some 7, "e5f6")))
  /\ LayoutRuns.select (Some LayoutRuns.removed)
       (LayoutRuns.mkRendering (withQuery "e5f6" home) 7)
       (LayoutRuns.mkCells None (Some (Some 7, "e5f6")))
     = Some (LayoutRuns.mkCells (Some LayoutRuns.removed) (Some (Some 7, "e5f6"))).
Proof. split; reflexivity. Qed.

(** X12. Deselecting: [setInstance(undefined)] empties the query parameter and
    goes to "/", and with an empty query parameter the effect selects
    nothing, whoever is logged in and whatever the list holds. *)
Theorem deselect_then_effect :
  forall (env : Env) (path : string),
    let env' := withQuery (queryAfter (setInstance None) (queryUuid env)) env in
    queryUuid env' = ""
    /\ pathAfter (setInstance None) path = "/"
    /\ selectedAfterEffect env' = Some None.
Proof. intros env path. repeat split. Qed.



End DashboardLayoutProps.

(** ** Properties of the setting field *)

Module SettingFieldProps.
Import Js SettingField Pages.

Lemma option_string_eqb_eq (a b : option string) :
  option_string_eqb a b = true <-> a = b.
Proof.
  destruct a as [x|], b as [y|]; simpl; try (split; congruence).
  rewrite String.eqb_eq. split; congruence.
Qed.

(** X14. The field throws exactly when it is a dropdown without options, and
    then with the message "Dropdown type requires options"; a text or number
    field renders whatever the other props and the hooks give. *)
Theorem throws_only_dropdown_without_options :
  forall (p : Props) (env : Env) (v : string),
    (SettingField p env v = Throw "Dropdown type requires options"
     <-> type p = Some dropdown /\ options p = None)
    /\ (forall m, SettingField p env v = Throw m -> m = "Dropdown type requires options").
Proof.
  intros p env v. unfold SettingField.
  destruct (type p) as [[| |]|]; destruct (options p) as [opts|]; simpl;
    repeat split; try congruence; try discriminate;
    intros [? ?]; discriminate.
Qed.

(** X15. What is shown does not depend on the permission: the result of
    [useUserAuthorized] changes nothing in the field, which is disabled
    exactly while the setting is loading. *)
Theorem permission_is_not_consulted :
  forall (p : Props) gameSetting auth auth' toMessage (v : string),
    SettingField p (mkEnv gameSetting auth toMessage) v
    = SettingField p (mkEnv gameSetting auth' toMessage) v
    /\ (forall view,
           SettingField p (mkEnv gameSetting auth toMessage) v = Normal view ->
           match view with
           | Textfield _ _ _ _ _ disabled _
           | Dropdown _ _ _ disabled _ =>
               disabled
               = isLoading (gameSetting (GameConsole.uuid (instance p)) (setting p))
           end).
Proof.
  intros p gs auth auth' etm v. split; [reflexivity|].
  intros view. unfold SettingField; simpl.
  destruct (type p) as [[| |]|]; try destruct (options p);
    intros H; try discriminate H; injection H as <-; reflexivity.
Qed.

(** *** The value on screen *)

Lemma render_state (p : Props) (env : Env) (s s' : State) (v : View) :
  render p env s = Normal (s', v) ->
  s' = layoutEffect (data (useGameSetting env (GameConsole.uuid (instance p)) (setting p))) s
  /\ SettingField p env (value s') = Normal v.
Proof.
  unfold render.
  destruct (SettingField p env (value s)) as [v0|m]; simpl; [|discriminate].
  destruct (SettingField p env (value (layoutEffect _ s))) as [v1|m] eqn:E; simpl;
    [|discriminate].
  intros H; injection H as <- <-. split; [reflexivity|exact E].
Qed.

Lemma renders_unless_throws (p : Props) (env : Env) (v : string) :
  (type p = Some dropdown -> options p <> None) ->
  exists view, SettingField p env v = Normal view.
Proof.
  intros Hopt. unfold SettingField.
  destruct (type p) as [[| |]|]; try (eexists; reflexivity).
  destruct (options p); [eexists; reflexivity|].
  exfalso. apply Hopt; reflexivity.
Qed.

(** X16. The first paint shows the fetched setting: after the first render the
    cell holds the setting the server gave, and the empty string while there
    is none; an empty setting is shown as it is. *)
Theorem first_render_shows_fetched_setting :
  forall (p : Props) (env : Env),
    (type p = Some dropdown -> options p <> None) ->
    exists s view,
      render p env (mount p env) = Normal (s, view)
      /\ value s
         = match data (useGameSetting env (GameConsole.uuid (instance p)) (setting p)) with
           | Some v => v
           | None => ""
           end
      /\ SettingField p env (value s) = Normal view
      /\ puts s = [].
Proof.
  intros p env Hopt.
  set (d := data (useGameSetting env (GameConsole.uuid (instance p)) (setting p))).
  destruct (renders_unless_throws p env (nullish d "") Hopt) as [view Hv].
  exists (layoutEffect d (mount p env)), view.
  unfold render, mount. fold d. simpl.
  rewrite Hv. simpl. repeat split.
Qed.

Lemma first_render_shows_fetched_setting_witness :
  exists s view,
    render portField (fetched None) (mount portField (fetched None)) = Normal (s, view)
    /\ value s
       = match data (useGameSetting (fetched None)
                       (GameConsole.uuid (instance portField)) (setting portField)) with
         | Some v => v
         | None => ""
         end
    /\ SettingField portField (fetched None) (value s) = Normal view
    /\ puts s = [].
Proof.
  apply (first_render_shows_fetched_setting portField (fetched None)).
  discriminate.
Defined.

(** X17. A submission and the render after it. Every submission makes one PUT
    to [/instance/<uuid>/game/<setting>] with the submitted value. If the
    setting fetched afterwards differs from the one the field had seen, the
    field shows the fetched one; otherwise it shows the submitted value when
    the field is a text field and the request succeeded, and in every other
    case (a number field, a dropdown, a failed request) the value it showed
    before. *)
Theorem submit_then_render :
  forall (p : Props) (env : Env) (s : State) (seen : option string)
         (submitted : string) (ok : bool),
    seenSetting s = Some seen ->
    (type p = Some dropdown -> options p <> None) ->
    let fetched := data (useGameSetting env (GameConsole.uuid (instance p)) (setting p)) in
    exists s',
      run [Submitted p submitted ok; Render p env] s = Normal s'
      /\ puts s'
         = (puts s
            ++ [mkPut ("/instance/" ++ GameConsole.uuid (instance p)
                         ++ "/game/" ++ setting p) submitted])%list
      /\ value s'
         = if option_string_eqb seen fetched then
             match type p with
             | None | Some text => if ok then submitted else value s
             | Some number | Some dropdown => value s
             end
           else nullish fetched "".
Proof.
  intros p env s seen submitted ok Hseen Hopt fetched.
  set (s1 := onSubmit p submitted ok s).
  assert (Hseen1 : seenSetting s1 = Some seen).
  { unfold s1, onSubmit. destruct (type p) as [[| |]|]; try destruct ok; exact Hseen. }
  assert (Hputs1 : puts s1 = (puts s ++ [mkPut (settingUrl p) submitted])%list).
  { unfold s1, onSubmit. destruct (type p) as [[| |]|]; try destruct ok; reflexivity. }
  assert (Hval1 : value s1
                  = match type p with
                    | None | Some text => if ok then submitted else value s
                    | Some number | Some dropdown => value s
                    end).
  { unfold s1, onSubmit. destruct (type p) as [[| |]|]; try destruct ok; reflexivity. }
  destruct (renders_unless_throws p env (value s1) Hopt) as [v0 Hv0].
  destruct (renders_unless_throws p env (value (layoutEffect fetched s1)) Hopt) as [v1 Hv1].
  exists (layoutEffect fetched s1).
  split.
  - cbn [run step bind]. fold s1. unfold render. fold fetched.
    rewrite Hv0. cbn [bind]. rewrite Hv1. reflexivity.
  - unfold layoutEffect. rewrite Hseen1.
    destruct (option_string_eqb seen fetched); simpl; split;
      assumption || reflexivity.
Qed.

Lemma submit_then_render_witness :
  exists s',
    run [Submitted motdField "Hello" true; Render motdField (Pages.fetched (Some "Welcome"))]
        motdShown = Normal s'
    /\ puts s'
       = (puts motdShown
          ++ [mkPut ("/instance/" ++ GameConsole.uuid (instance motdField)
                       ++ "/game/" ++ setting motdField) "Hello"])%list
    /\ value s'
       = if option_string_eqb (Some "Welcome")
              (data (useGameSetting (Pages.fetched (Some "Welcome"))
                       (GameConsole.uuid (instance motdField)) (setting motdField)))
         then
           match type motdField with
           | None | Some text => if true then "Hello" else value motdShown
           | Some number | Some dropdown => value motdShown
           end
         else nullish (data (useGameSetting (Pages.fetched (Some "Welcome"))
                               (GameConsole.uuid (instance motdField)) (setting motdField))) "".
Proof.
  apply (submit_then_render motdField (Pages.fetched (Some "Welcome")) motdShown
           (Some "Welcome") "Hello" true).
  - reflexivity.
  - discriminate.
Defined.

End SettingFieldProps.

(** ** The gate on commands *)

Module CommandGate.
Import Js Dom GameConsole ConsoleRuns GameConsoleProps ConsoleRunsProps.

Lemma sendCommand_keeps_page r text s : mounted (sendCommand r text s) = mounted s.
Proof.
  unfold sendCommand, scrollToBottom; simpl.
  destruct (listRef (hooks s)); reflexivity.
Qed.

Lemma rerender_completes (i : InstanceInfo) auth stream r s :
  mounted s = Some (mkEnv (Some i) auth stream, r) -> exists s', rerender s = Normal s'.
Proof.
  unfold rerender. intros ->.
  destruct (listRef (hooks s)); eexists; reflexivity.
Qed.

(** The handler of lines 127-131 has no test of its own: whenever it runs,
    it posts the command of its render. *)
Lemma onSubmit_unguarded (i : InstanceInfo) auth stream r s :
  mounted s = Some (mkEnv (Some i) auth stream, r) ->
  exists s',
    onSubmit r s = Normal s'
    /\ posts (writes s')
       = (posts (writes s)
          ++ [{| method := "post";
                 url := "/instance/" ++ r_uuid r ++ "/console";
                 data := JSON_stringify (r_command r);
                 headers := [("Content-Type", "application/json")] |}])%list.
Proof.
  intros Hm.
  assert (Hex : exists s', onSubmit r s = Normal s').
  { unfold onSubmit, setCommandAndRender.
    destruct (String.eqb _ _); [eexists; reflexivity|].
    apply (rerender_completes i auth stream r).
    simpl. rewrite sendCommand_keeps_page. exact Hm. }
  destruct Hex as [s' Hs']. exists s'. split; [exact Hs'|].
  unfold onSubmit in Hs'. apply setCommandAndRender_posts in Hs'.
  rewrite Hs'. apply sendCommand_posts.
Qed.

(** C1, amended. After any render of a console with an instance, the field
    is disabled exactly when the permission is denied (the check fails or the
    status is [no-permission]), the instance is not "Running", or the status
    is [closed], and its placeholder then says which: "No permission";
    otherwise "Instance is " and the run-state (in lower case, for a run-state
    in ASCII); otherwise "Console is closed". A disabled field takes no key:
    submitting and typing do nothing, nothing is thrown and nothing is posted.
    That is the whole gate: the handler itself tests nothing and would post.
    With the field enabled, submitting posts the command. *)
Theorem command_gating :
  forall (i : InstanceInfo) auth stream layout (s : State),
    let env := mkEnv (Some i) auth stream in
    let can := auth "can_access_instance_console" (uuid i) in
    let st := consoleStatus (stream (uuid i)) in
    let request :=
      {| method := "post";
         url := "/instance/" ++ uuid i ++ "/console";
         data := JSON_stringify (command (hooks s));
         headers := [("Content-Type", "application/json")] |} in
    exists r s',
      render env layout s = Normal s'
      /\ mounted s' = Some (env, r)
      /\ (disabled (view r) = true
          <-> can = false \/ st = no_permission \/ state i <> "Running" \/ st = closed)
      /\ (can = false \/ st = no_permission -> placeholder (view r) = "No permission")
      /\ (can = true -> st <> no_permission -> state i <> "Running" ->
          exists shown,
            placeholder (view r) = "Instance is " ++ shown
            /\ (asciiOnly (state i) = true -> shown = toLowerCase (state i)))
      /\ (can = true -> st <> no_permission -> state i = "Running" -> st = closed ->
          placeholder (view r) = "Console is closed")
      /\ (disabled (view r) = true ->
          step Submit s' = Normal s' /\ forall text, step (Change text) s' = Normal s')
      /\ (disabled (view r) = false ->
          exists s'',
            step Submit s' = Normal s''
            /\ posts (writes s'') = (posts (writes s') ++ [request])%list)
      /\ (exists s'',
            onSubmit r s' = Normal s''
            /\ posts (writes s'') = (posts (writes s') ++ [request])%list).
Proof.
  intros i auth stream layout s env can st request.
  destruct (render_selected i auth stream layout s) as (r & Hr & Hrender).
  destruct (GameConsole_selected i auth stream (hooks s))
    as (r' & Hr' & Hu & Hc & _ & _ & _ & Hdis & Hph & _).
  rewrite Hr in Hr'; injection Hr' as <-.
  fold env can st in Hdis, Hph, Hrender.
  exists r, (commit env r layout s).
  pose proof (commit_mounted env r layout s) as Hm.
  destruct (inputMessage_by_cause can st i) as (H1 & H2 & H3 & _).
  split; [exact Hrender|]. split; [exact Hm|].
  split; [rewrite Hdis; apply inputMessage_nonempty|].
  split; [intros Hd; rewrite Hph, (H1 Hd); reflexivity|].
  split.
  { intros Hcan Hst Hrun. rewrite Hph, (H2 Hcan Hst Hrun).
    exists (toLowerCase (state i)). split; [reflexivity|trivial]. }
  split; [intros Hcan Hst Hrun Hcl; rewrite Hph, (H3 Hcan Hst Hrun Hcl); reflexivity|].
  split; [intros Hd; exact (submit_disabled _ _ _ Hm Hd)|].
  assert (Hhandler : exists s'',
             onSubmit r (commit env r layout s) = Normal s''
             /\ posts (writes s'') = (posts (writes (commit env r layout s)) ++ [request])%list).
  { destruct (onSubmit_unguarded i auth stream r _ Hm) as (s'' & Hs'' & Hp).
    exists s''. split; [exact Hs''|]. rewrite Hp. unfold request. rewrite Hu, Hc. reflexivity. }
  split; [|exact Hhandler].
  intros Hen. unfold step, enabledInput. rewrite Hm, Hen. exact Hhandler.
Qed.

End CommandGate.
